(** * Temperature detection station: a shallow embedding and its properties

    The development follows the two Python modules of the repository:
    [real_temperature_sensor.py] (the Modbus RTU sensor) and
    [temperature_station.py] (the station with its polling loop, status
    snapshot and CSV export).

    Conventions of the embedding:
    - a Python [float] is a rational ([Q]) that stands for the double nearest
      to it; the generator and [round] are computed on the rationals, the
      differences that are compared with the threshold are computed in
      binary64, as the code computes them; [None] is [option]'s [None];
    - an object is a record, a method is a function that threads the object
      and the outside world explicitly, in a small state-and-exception monad
      so that [try]/[except] reads as in the source;
    - the serial line, the random generator and the wall clock are inputs:
      the line is an oracle that answers the n-th I/O request, the random
      draws and the timestamp are arguments of a polling iteration;
    - a thread is an identifier in the list of live threads of the world. A
      call of the display layer and one iteration of the polling loop are
      atomic steps that interleave freely: the history and the current
      temperatures change only inside one critical section of [self.lock],
      and [join(timeout=1)] bounds a wait, not the life of the thread. *)

From Stdlib Require Import ZArith QArith List String Ascii Bool Lia Lqa.
From Stdlib Require Import DecimalString.
From Stdlib Require Import Floats.SpecFloat.
Import ListNotations.

Local Open Scope string_scope.

(** ** Results of Python code: a value or a raised exception *)

Inductive outcome (A : Type) : Type :=
| Returns (a : A)
| Raises (msg : string).

Arguments Returns {A} a.
Arguments Raises {A} msg.

(** A computation over a mutable state [S]. State changes made before an
    exception is raised stay, as in Python. *)
Definition M (S A : Type) : Type := S -> outcome A * S.

Definition ret {S A} (a : A) : M S A := fun s => (Returns a, s).

Definition bind {S A B} (m : M S A) (k : A -> M S B) : M S B :=
  fun s =>
    match m s with
    | (Returns a, s') => k a s'
    | (Raises e, s') => (Raises e, s')
    end.

Definition modify {S} (f : S -> S) : M S unit := fun s => (Returns tt, f s).

(** [try: body except Exception as e: handler e] *)
Definition try_except {S A} (body : M S A) (handler : string -> M S A) : M S A :=
  fun s =>
    match body s with
    | (Returns a, s') => (Returns a, s')
    | (Raises e, s') => handler e s'
    end.

Declare Scope py_scope.
Delimit Scope py_scope with py.
Notation "x <- m ;; k" := (bind m (fun x => k))
  (at level 61, m at next level, right associativity) : py_scope.
Notation "m ;;; k" := (bind m (fun _ => k))
  (at level 61, right associativity) : py_scope.

(** ** Floats as rationals *)

Definition Qltb (x y : Q) : bool :=
  (Qnum x * Zpos (Qden y) <? Qnum y * Zpos (Qden x))%Z.

Lemma Qltb_lt (x y : Q) : Qltb x y = true <-> (x < y)%Q.
Proof. unfold Qltb, Qlt. apply Z.ltb_lt. Qed.

Lemma Qltb_ge (x y : Q) : Qltb x y = false <-> (y <= x)%Q.
Proof. unfold Qltb, Qle. apply Z.ltb_ge. Qed.

(** Nearest integer, ties to the even one. *)
Definition round_half_even (x : Q) : Z :=
  let n := Qnum x in
  let d := Zpos (Qden x) in
  let f := (n / d)%Z in
  let r := (n mod d)%Z in
  match (2 * r ?= d)%Z with
  | Lt => f
  | Gt => (f + 1)%Z
  | Eq => if Z.even f then f else (f + 1)%Z
  end.

(** Python's [round(x, 2)]. *)
Definition round2 (x : Q) : Q := round_half_even (x * 100) # 100.

(** ** Binary64 arithmetic

    The operations of IEEE 754 doubles are those of the Standard Library's
    specification of floating-point numbers, at precision 53 and maximal
    exponent 1024. A rational whose numerator and denominator are below
    2^53, as every temperature with two decimals is, stands for the double
    that the correctly rounded division gives. *)

Definition double_of_Z (n : Z) : spec_float := binary_normalize 53 1024 n 0 false.

Definition double_of_Q (x : Q) : spec_float :=
  SFdiv 53 1024 (double_of_Z (Qnum x)) (double_of_Z (Zpos (Qden x))).

(** The value of a finite double; temperatures never reach the others. *)
Definition Q_of_double (f : spec_float) : Q :=
  match f with
  | S754_finite s m e =>
      let z := if s then Zneg m else Zpos m in
      match e with
      | Zneg p => z # (2 ^ p)
      | _ => inject_Z (z * 2 ^ e)
      end
  | _ => 0
  end.

(** The double a rational stands for, as a rational. *)
Definition double (x : Q) : Q := Q_of_double (double_of_Q x).

(** [x - y] on doubles. *)
Definition double_sub (x y : Q) : Q :=
  Q_of_double (SFsub 53 1024 (double_of_Q x) (double_of_Q y)).

#[global] Arguments double : simpl never.
#[global] Arguments double_sub : simpl never.

(** The dictionary [{'channel1': ..., 'channel2': ...}] of both modules. *)
Record Temperatures : Type := mkTemps {
  channel1 : option Q;
  channel2 : option Q
}.

(** ** The Modbus line (minimalmodbus and the serial port behind it) *)

Module Modbus.

Inductive request : Type :=
| Instrument (port : string) (slaveaddress : Z)
| read_register (registeraddress : Z) (number_of_decimals : Z)
                (functioncode : Z) (signed : bool)
| serial_close.

Inductive reply : Type :=
| Value (v : Q)
| Failure (msg : string).

(** The line answers the n-th request it gets and keeps the requests it
    got, oldest first. *)
Record Line : Type := mkLine {
  device : nat -> request -> reply;
  requests : list request
}.

Definition send (rq : request) (l : Line) : reply * Line :=
  (device l (List.length (requests l)) rq,
   {| device := device l; requests := (requests l ++ [rq])%list |}).

End Modbus.

(** ** real_temperature_sensor.py *)

Module RealTemperatureSensor.

Record t : Type := mk {
  com_port : string;
  slave_address : Z;
  baudrate : Z;
  timeout : Q;
  instrument : bool;          (* [self.instrument is not None] *)
  is_connected : bool;
  last_error : option string
}.

Definition State : Type := (t * Modbus.Line)%type.

Definition __init__ (com_port : string) (slave_address baudrate : Z)
    (timeout : Q) : t :=
  {| com_port := com_port; slave_address := slave_address;
     baudrate := baudrate; timeout := timeout;
     instrument := false; is_connected := false; last_error := None |}.

Definition set_instrument (b : bool) (s : t) : t :=
  {| com_port := com_port s; slave_address := slave_address s;
     baudrate := baudrate s; timeout := timeout s;
     instrument := b; is_connected := is_connected s;
     last_error := last_error s |}.

Definition set_is_connected (b : bool) (s : t) : t :=
  {| com_port := com_port s; slave_address := slave_address s;
     baudrate := baudrate s; timeout := timeout s;
     instrument := instrument s; is_connected := b;
     last_error := last_error s |}.

Definition set_last_error (e : option string) (s : t) : t :=
  {| com_port := com_port s; slave_address := slave_address s;
     baudrate := baudrate s; timeout := timeout s;
     instrument := instrument s; is_connected := is_connected s;
     last_error := e |}.

Local Open Scope py_scope.

Definition self : M State t := fun s => (Returns (fst s), s).
Definition assign (f : t -> t) : M State unit :=
  modify (fun s : State => (f (fst s), snd s)).

(** One request on the line; a failure is a raised exception. *)
Definition io (rq : Modbus.request) : M State Q :=
  fun s =>
    match Modbus.send rq (snd s) with
    | (Modbus.Value v, l') => (Returns v, (fst s, l'))
    | (Modbus.Failure msg, l') => (Raises msg, (fst s, l'))
    end.

Definition setup_sensor : M State bool :=
  try_except
    (me <- self ;;
     io (Modbus.Instrument (com_port me) (slave_address me)) ;;;
     assign (set_instrument true) ;;;
     io (Modbus.read_register 0 1 3 true) ;;;
     assign (set_is_connected true) ;;;
     assign (set_last_error None) ;;;
     ret true)
    (fun e =>
       assign (set_is_connected false) ;;;
       assign (set_last_error (Some e)) ;;;
       ret false).

(** The [try]/[except] block of [read_temperature]. *)
Definition read_register_of_channel (channel : Z) : M State (option Q) :=
  try_except
    (let register_address := (channel - 1)%Z in
     temperature <- io (Modbus.read_register register_address 1 3 true) ;;
     assign (set_last_error None) ;;;
     ret (Some temperature))
    (fun e =>
       assign (set_last_error (Some e)) ;;;
       assign (set_is_connected false) ;;;
       ret None).

Definition read_temperature (channel : Z) : M State (option Q) :=
  me <- self ;;
  if negb (is_connected me) || negb (instrument me) then
    ok <- setup_sensor ;;
    if negb ok then ret None else read_register_of_channel channel
  else read_register_of_channel channel.

Definition read_all_temperatures : M State Temperatures :=
  c1 <- read_temperature 1 ;;
  c2 <- read_temperature 2 ;;
  ret {| channel1 := c1; channel2 := c2 |}.

Record Status : Type := mkStatus {
  status_is_connected : bool;
  status_com_port : string;
  status_slave_address : Z;
  status_last_error : option string
}.

Definition get_status (s : t) : Status :=
  {| status_is_connected := is_connected s;
     status_com_port := com_port s;
     status_slave_address := slave_address s;
     status_last_error := last_error s |}.

Definition disconnect : M State unit :=
  me <- self ;;
  (if instrument me
   then try_except (io Modbus.serial_close ;;; ret tt) (fun _ => ret tt)
   else ret tt) ;;;
  assign (set_is_connected false) ;;;
  assign (set_instrument false).

End RealTemperatureSensor.

(** ** Text: decimal digits, [datetime.strftime], [str(float)], [csv.writer] *)

Definition digit (n : Z) : ascii := ascii_of_nat (48 + Z.to_nat n).

Definition is_digit (c : ascii) : bool :=
  (48 <=? nat_of_ascii c)%nat && (nat_of_ascii c <=? 57)%nat.

(** [str(n)] for a Python [int]. *)
Definition str_int (n : Z) : string := NilZero.string_of_int (Z.to_int n).

Definition pad2 (z : Z) : string :=
  String (digit (z / 10)) (String (digit (z mod 10)) "").

Definition pad4 (z : Z) : string :=
  String (digit (z / 1000)) (String (digit (z / 100 mod 10))
    (String (digit (z / 10 mod 10)) (String (digit (z mod 10)) ""))).

Module Datetime.

Record t : Type := mk {
  year : Z; month : Z; day : Z;
  hour : Z; minute : Z; second : Z;
  microsecond : Z
}.

(** What [datetime.now()] can return: a date of the calendar between the
    years 1000 and 9999 (below 1000 the width of [%Y] depends on the
    platform). *)
Definition valid (d : t) : Prop :=
  (1000 <= year d <= 9999 /\ 1 <= month d <= 12 /\ 1 <= day d <= 31 /\
   0 <= hour d <= 23 /\ 0 <= minute d <= 59 /\ 0 <= second d <= 59)%Z.

(** [d.strftime('%Y-%m-%d %H:%M:%S')] *)
Definition strftime (d : t) : string :=
  pad4 (year d) ++ "-" ++ pad2 (month d) ++ "-" ++ pad2 (day d) ++ " " ++
  pad2 (hour d) ++ ":" ++ pad2 (minute d) ++ ":" ++ pad2 (second d).

End Datetime.

(** Fractional digits of [r / d] for [0 <= r < d], until the remainder is
    zero; at least one digit. *)
Fixpoint frac_digits (fuel : nat) (r d : Z) : string :=
  match fuel with
  | O => ""
  | S fuel' =>
      let r10 := (10 * r)%Z in
      String (digit (r10 / d))
             (if (r10 mod d =? 0)%Z then "" else frac_digits fuel' (r10 mod d) d)
  end.

(** [str(x)] for a Python [float] in positional notation: the shortest
    decimal that reads back as [x]. For a float that holds a short decimal
    fraction, as [round(_, 2)] returns, that is its expansion without
    trailing zeros and with at least one fractional digit. *)
Definition str_float (x : Q) : string :=
  let n := Qnum x in
  let d := Zpos (Qden x) in
  let a := Z.abs n in
  (if (n <? 0)%Z then "-" else "") ++
  str_int (a / d) ++ "." ++ frac_digits 17 (a mod d) d.

Module Csv.

Definition quotechar : ascii := ascii_of_nat 34.
Definition delimiter : ascii := ",".
Definition CR : ascii := ascii_of_nat 13.
Definition LF : ascii := ascii_of_nat 10.
Definition lineterminator : string := String CR (String LF "").

Definition special (c : ascii) : bool :=
  Ascii.eqb c delimiter || Ascii.eqb c quotechar ||
  Ascii.eqb c CR || Ascii.eqb c LF.

Fixpoint needs_quotes (s : string) : bool :=
  match s with
  | EmptyString => false
  | String c s' => special c || needs_quotes s'
  end.

Fixpoint double_quotes (s : string) : string :=
  match s with
  | EmptyString => EmptyString
  | String c s' =>
      if Ascii.eqb c quotechar
      then String quotechar (String quotechar (double_quotes s'))
      else String c (double_quotes s')
  end.

(** A field under the default dialect (QUOTE_MINIMAL, doublequote). *)
Definition field (s : string) : string :=
  if needs_quotes s
  then String quotechar (double_quotes s ++ String quotechar "")
  else s.

(** [writer.writerow(row)] on the text written so far. *)
Definition writerow (row : list string) (output : string) : string :=
  output ++ String.concat (String delimiter "") (map field row) ++ lineterminator.

End Csv.

(** ** The world outside the station object *)

(** The serial line and the threads of the process that run the polling
    loop. A thread leaves [live_threads] when its loop ends. *)
Record World : Type := mkWorld {
  line : Modbus.Line;
  live_threads : list nat;
  threads_created : nat
}.

Definition set_line (l : Modbus.Line) (w : World) : World :=
  {| line := l; live_threads := live_threads w;
     threads_created := threads_created w |}.

(** [threading.Thread(target=...)] followed by [start()]. *)
Definition spawn (w : World) : nat * World :=
  (threads_created w,
   {| line := line w;
      live_threads := (live_threads w ++ [threads_created w])%list;
      threads_created := S (threads_created w) |}).

Definition exit_thread (tid : nat) (w : World) : World :=
  {| line := line w;
     live_threads := filter (fun x => negb (Nat.eqb x tid)) (live_threads w);
     threads_created := threads_created w |}.

(** What one polling iteration takes from outside: the two draws of
    [random.uniform] (used only when the iteration simulates) and the value
    of [datetime.now()]. *)
Record Inputs : Type := mkInputs {
  uniform1 : Q;
  uniform2 : Q;
  now : Datetime.t
}.

(** ** temperature_station.py *)

Module TemperatureStation.

Record Reading : Type := mkReading {
  timestamp : Datetime.t;
  channel1_temperature : Q;
  channel2_temperature : Q
}.

Record t : Type := mk {
  station_id : Z;
  name : string;
  threshold_difference : Q;
  use_real_sensor : bool;
  is_running : bool;
  thread : option nat;
  current_temperatures : Temperatures;
  temperature_history : list Reading;
  real_sensor : option RealTemperatureSensor.t;
  sensor_connection_error : option string
}.

Definition State : Type := (t * World)%type.

Definition set_is_running (b : bool) (s : t) : t :=
  mk (station_id s) (name s) (threshold_difference s) (use_real_sensor s)
     b (thread s) (current_temperatures s) (temperature_history s)
     (real_sensor s) (sensor_connection_error s).

Definition set_thread (th : option nat) (s : t) : t :=
  mk (station_id s) (name s) (threshold_difference s) (use_real_sensor s)
     (is_running s) th (current_temperatures s) (temperature_history s)
     (real_sensor s) (sensor_connection_error s).

Definition set_current_temperatures (c : Temperatures) (s : t) : t :=
  mk (station_id s) (name s) (threshold_difference s) (use_real_sensor s)
     (is_running s) (thread s) c (temperature_history s)
     (real_sensor s) (sensor_connection_error s).

Definition set_temperature_history (h : list Reading) (s : t) : t :=
  mk (station_id s) (name s) (threshold_difference s) (use_real_sensor s)
     (is_running s) (thread s) (current_temperatures s) h
     (real_sensor s) (sensor_connection_error s).

Definition set_real_sensor (r : option RealTemperatureSensor.t) (s : t) : t :=
  mk (station_id s) (name s) (threshold_difference s) (use_real_sensor s)
     (is_running s) (thread s) (current_temperatures s)
     (temperature_history s) r (sensor_connection_error s).

Definition set_sensor_connection_error (e : option string) (s : t) : t :=
  mk (station_id s) (name s) (threshold_difference s) (use_real_sensor s)
     (is_running s) (thread s) (current_temperatures s)
     (temperature_history s) (real_sensor s) e.

Local Open Scope py_scope.

Definition self : M State t := fun s => (Returns (fst s), s).
Definition assign (f : t -> t) : M State unit :=
  modify (fun s : State => (f (fst s), snd s)).

(** A method call on [self.real_sensor]. *)
Definition on_sensor {A} (m : M RealTemperatureSensor.State A) : M State A :=
  fun s =>
    match real_sensor (fst s) with
    | Some sensor =>
        match m (sensor, line (snd s)) with
        | (r, (sensor', l')) =>
            (r, (set_real_sensor (Some sensor') (fst s), set_line l' (snd s)))
        end
    | None => (Raises "AttributeError: 'NoneType' object", s)
    end.

Definition is_some {A} (o : option A) : bool :=
  match o with Some _ => true | None => false end.

Definition no_temperatures : Temperatures :=
  {| channel1 := None; channel2 := None |}.

Definition __init__ (station_id : Z) (name : string)
    (threshold_difference : Q) (use_real_sensor : bool) (com_port : string)
    : M World t :=
  fun w =>
    let st := mk station_id name threshold_difference use_real_sensor
                 false None no_temperatures [] None None in
    if use_real_sensor then
      let sensor := RealTemperatureSensor.__init__ com_port 1 9600 1 in
      match RealTemperatureSensor.setup_sensor (sensor, line w) with
      | (Returns ok, (sensor', l')) =>
          let st' := set_real_sensor (Some sensor') st in
          (Returns
             (if negb ok
              then set_sensor_connection_error
                     (RealTemperatureSensor.last_error sensor') st'
              else st'),
           set_line l' w)
      | (Raises e, (_, l')) => (Raises e, set_line l' w)
      end
    else (Returns st, w).

Definition start_detection : M State unit :=
  me <- self ;;
  if negb (is_running me) then
    assign (set_temperature_history []) ;;;
    assign (set_current_temperatures no_temperatures) ;;;
    assign (set_is_running true) ;;;
    (fun s : State =>
       let (tid, w') := spawn (snd s) in
       (Returns tt, (set_thread (Some tid) (fst s), w')))
  else ret tt.

(** [self.thread.join(timeout=1)] waits for at most one second and changes
    nothing: whether the thread has left its loop by then is up to the
    thread, not to the caller. *)
Definition join (tid : nat) : M State unit := ret tt.

Definition stop_detection : M State unit :=
  assign (set_is_running false) ;;;
  me <- self ;;
  (match thread me with
   | Some tid => join tid
   | None => ret tt
   end) ;;;
  if is_some (real_sensor me)
  then on_sensor RealTemperatureSensor.disconnect
  else ret tt.

Definition _get_simulated_temperatures (inp : Inputs) : Temperatures :=
  let base_temp1 := 5 in
  let base_temp2 := 24 in
  {| channel1 := Some (base_temp1 + uniform1 inp);
     channel2 := Some (base_temp2 + uniform2 inp) |}.

(** [history.append(r)] and then [history.pop(0)] when that made more than
    100 entries. *)
Definition append_reading (r : Reading) (history : list Reading)
    : list Reading :=
  let history' := (history ++ [r])%list in
  if (100 <? List.length history')%nat then tl history' else history'.

(** The body of the [while] loop of [_detection_loop], without the sleep. *)
Definition _detection_loop_body (inp : Inputs) : M State unit :=
  me <- self ;;
  temperatures <-
    (if use_real_sensor me && is_some (real_sensor me) then
       temperatures <- on_sensor RealTemperatureSensor.read_all_temperatures ;;
       sensor_status <-
         on_sensor (sensor <- RealTemperatureSensor.self ;;
                    ret (RealTemperatureSensor.get_status sensor)) ;;
       (if negb (RealTemperatureSensor.status_is_connected sensor_status)
        then assign (set_sensor_connection_error
                       (RealTemperatureSensor.status_last_error sensor_status))
        else assign (set_sensor_connection_error None)) ;;;
       (if negb (is_some (channel1 temperatures))
           || negb (is_some (channel2 temperatures))
        then ret (_get_simulated_temperatures inp)
        else ret temperatures)
     else ret (_get_simulated_temperatures inp)) ;;
  match channel1 temperatures, channel2 temperatures with
  | Some c1, Some c2 =>
      assign (set_current_temperatures
                {| channel1 := Some (round2 c1);
                   channel2 := Some (round2 c2) |}) ;;;
      let timestamp := now inp in
      assign (fun s =>
                set_temperature_history
                  (append_reading
                     {| timestamp := timestamp;
                        channel1_temperature := round2 c1;
                        channel2_temperature := round2 c2 |}
                     (temperature_history s)) s)
  | _, _ => ret tt
  end.

(** One turn of [while self.is_running: ...] in the thread [tid]: the test,
    then the body or the end of the thread. An exception that leaves the
    body ends the thread too. *)
Definition _detection_loop (tid : nat) (inp : Inputs) : M State unit :=
  fun s =>
    if existsb (Nat.eqb tid) (live_threads (snd s)) then
      if is_running (fst s) then
        match _detection_loop_body inp s with
        | (Returns _, s') => (Returns tt, s')
        | (Raises _, s') => (Returns tt, (fst s', exit_thread tid (snd s')))
        end
      else (Returns tt, (fst s, exit_thread tid (snd s)))
    else (Returns tt, s).

Definition get_current_temperatures (s : t) : Temperatures :=
  current_temperatures s.

Definition get_temperature_history (s : t) : list Reading :=
  temperature_history s.

Record Status : Type := mkStatus {
  status_station_id : Z;
  status_name : string;
  status_is_running : bool;
  status_current_temperatures : Temperatures;
  status_readings_count : nat;
  status_threshold_difference : Q;
  current_difference : option Q;
  is_abnormal : option bool;     (* a Python value: [None] or a [bool] *)
  status_use_real_sensor : bool;
  sensor_connected : option bool;
  sensor_error : option string
}.

Definition get_status (s : t) : Status :=
  let current_temps := get_current_temperatures s in
  let sensor_status :=
    if use_real_sensor s && is_some (real_sensor s)
    then option_map RealTemperatureSensor.get_status (real_sensor s)
    else None in
  let '(temperature_difference, is_abnormal) :=
    match channel1 current_temps, channel2 current_temps with
    | Some c1, Some c2 =>
        let temperature_difference := double_sub c2 c1 in
        (Some temperature_difference,
         Qltb temperature_difference (double (threshold_difference s)))
    | _, _ => (None, false)
    end in
  {| status_station_id := station_id s;
     status_name := name s;
     status_is_running := is_running s;
     status_current_temperatures := current_temps;
     status_readings_count := List.length (temperature_history s);
     status_threshold_difference := threshold_difference s;
     current_difference := temperature_difference;
     is_abnormal := Some is_abnormal;
     status_use_real_sensor := use_real_sensor s;
     sensor_connected :=
       if use_real_sensor s
       then Some match sensor_status with
                 | Some st => RealTemperatureSensor.status_is_connected st
                 | None => false
                 end
       else None;
     sensor_error := sensor_connection_error s |}.

Definition header : list string :=
  ["Timestamp"; "Channel1_Temperature_Celsius";
   "Channel2_Temperature_Celsius"; "Station_Name"; "Station_ID"].

Definition export_to_csv (s : t) : string :=
  let output := Csv.writerow header "" in
  fold_left
    (fun output reading =>
       Csv.writerow
         [Datetime.strftime (timestamp reading);
          str_float (channel1_temperature reading);
          str_float (channel2_temperature reading);
          name s;
          str_int (station_id s)]
         output)
    (temperature_history s) output.

End TemperatureStation.

(** ** Driving a station: calls of the display layer and turns of the threads *)

Inductive call : Type :=
| Start
| Stop
| Poll (tid : nat) (inp : Inputs).

Definition step (c : call) (s : TemperatureStation.State)
    : TemperatureStation.State :=
  match c with
  | Start => snd (TemperatureStation.start_detection s)
  | Stop => snd (TemperatureStation.stop_detection s)
  | Poll tid inp => snd (TemperatureStation._detection_loop tid inp s)
  end.

Definition run (cs : list call) (s : TemperatureStation.State)
    : TemperatureStation.State :=
  fold_left (fun s c => step c s) cs s.

(** * Properties of the sensor *)

Module SensorFacts.
Import RealTemperatureSensor.

Ltac run_sensor :=
  unfold read_all_temperatures, read_temperature, setup_sensor,
    read_register_of_channel, disconnect, bind, try_except, self, io,
    assign, modify, ret, Modbus.send; cbn.

(** How a sensor is left by a read: down with a message, or up with none. *)
Definition left_as (r : option Q) (s' : t) : Prop :=
  match r with
  | None => is_connected s' = false /\ exists msg, last_error s' = Some msg
  | Some _ => is_connected s' = true /\ instrument s' = true /\
              last_error s' = None
  end.

Lemma setup_sensor_returns (s : t) (l : Modbus.Line) :
  exists ok s' l',
    setup_sensor (s, l) = (Returns ok, (s', l')) /\
    is_connected s' = ok /\
    (ok = true -> instrument s' = true /\ last_error s' = None) /\
    (ok = false -> exists msg, last_error s' = Some msg).
Proof.
  run_sensor.
  destruct (Modbus.device l _ _); cbn;
    [destruct (Modbus.device l _ _); cbn|];
    do 3 eexists; (split; [reflexivity|]); cbn;
    repeat split; intros; try discriminate; eauto.
Qed.

Lemma read_temperature_returns (n : Z) (s : t) (l : Modbus.Line) :
  exists r s' l',
    read_temperature n (s, l) = (Returns r, (s', l')) /\ left_as r s'.
Proof.
  run_sensor.
  destruct (is_connected s) eqn:Hc, (instrument s) eqn:Hi; cbn;
    repeat (destruct (Modbus.device l _ _); cbn);
    do 3 eexists; (split; [reflexivity|]); cbn; eauto.
Qed.

Lemma read_all_temperatures_returns (s : t) (l : Modbus.Line) :
  exists c1 c2 s' l',
    read_all_temperatures (s, l)
    = (Returns {| channel1 := c1; channel2 := c2 |}, (s', l')) /\
    left_as c2 s'.
Proof.
  destruct (read_temperature_returns 1 s l) as (c1 & s1 & l1 & E1 & _).
  destruct (read_temperature_returns 2 s1 l1) as (c2 & s2 & l2 & E2 & H2).
  exists c1, c2, s2, l2. split; [|exact H2].
  unfold read_all_temperatures, bind. rewrite E1, E2. reflexivity.
Qed.

Lemma disconnect_returns (s : t) (l : Modbus.Line) :
  exists s' l',
    disconnect (s, l) = (Returns tt, (s', l')) /\
    is_connected s' = false /\ instrument s' = false.
Proof.
  run_sensor.
  destruct (instrument s); cbn; [destruct (Modbus.device l _ _); cbn|];
    do 2 eexists; repeat split.
Qed.

(** The request that [read_temperature channel] puts on the line. *)
Definition register_read (channel : Z) : Modbus.request :=
  Modbus.read_register (channel - 1) 1 3 true.

Definition logged (rqs : list Modbus.request) (l : Modbus.Line) : Modbus.Line :=
  {| Modbus.device := Modbus.device l;
     Modbus.requests := (Modbus.requests l ++ rqs)%list |}.

Definition nth_reply (l : Modbus.Line) (k : nat) (rq : Modbus.request)
    : Modbus.reply :=
  Modbus.device l (List.length (Modbus.requests l) + k) rq.

Definition is_value (r : Modbus.reply) : bool :=
  match r with Modbus.Value _ => true | Modbus.Failure _ => false end.

(** A sensor and a line for the examples: the sensor is up, the line
    is dead. *)
Definition sensor_up : t :=
  set_is_connected true (set_instrument true (__init__ "COM4" 1 9600 1)).

Definition dead_line : Modbus.Line :=
  {| Modbus.device := fun _ _ => Modbus.Failure "No communication with the instrument";
     Modbus.requests := [] |}.

(** C9. A failed register read makes [read_temperature] return [None]: no
    exception reaches the caller, the sensor is marked as disconnected and
    the message of the failure is kept in [last_error]. This holds when
    the sensor was connected and when the read follows a reconnection that
    succeeded; the register asked for channel [n] is [n - 1]; and after a
    read that returned [None] the next read first tries to reconnect. *)
Theorem read_temperature_io_failure (n : Z) (s : t) (l : Modbus.Line) :
  (exists r st', read_temperature n (s, l) = (Returns r, st')) /\
  (is_connected s = true -> instrument s = true ->
     (snd (snd (read_temperature n (s, l))) = logged [register_read n] l) /\
     forall msg, nth_reply l 0 (register_read n) = Modbus.Failure msg ->
       read_temperature n (s, l)
       = (Returns None,
          (set_is_connected false (set_last_error (Some msg) s),
           logged [register_read n] l))) /\
  (is_connected s && instrument s = false ->
     let connect := Modbus.Instrument (com_port s) (slave_address s) in
     let probe := Modbus.read_register 0 1 3 true in
     is_value (nth_reply l 0 connect) = true ->
     is_value (nth_reply l 1 probe) = true ->
     forall msg, nth_reply l 2 (register_read n) = Modbus.Failure msg ->
       read_temperature n (s, l)
       = (Returns None,
          (set_is_connected false
             (set_last_error (Some msg) (set_instrument true s)),
           logged [connect; probe; register_read n] l))) /\
  (forall s' l', read_temperature n (s, l) = (Returns None, (s', l')) ->
     is_connected s' = false /\
     (exists msg, last_error s' = Some msg) /\
     forall m, exists rest,
       Modbus.requests (snd (snd (read_temperature m (s', l'))))
       = (Modbus.requests l'
          ++ Modbus.Instrument (com_port s') (slave_address s') :: rest)%list).
Proof.
  split; [|split; [|split]].
  - destruct (read_temperature_returns n s l) as (r & s' & l' & E & _).
    eauto.
  - intros Hc Hi. unfold nth_reply, register_read, logged.
    rewrite Nat.add_0_r. run_sensor. rewrite Hc, Hi. cbn.
    split.
    + destruct (Modbus.device l _ _); reflexivity.
    + intros msg ->. reflexivity.
  - intros Hd connect probe. subst connect probe.
    unfold nth_reply, register_read, logged.
    rewrite Nat.add_0_r. run_sensor.
    replace (negb (is_connected s) || negb (instrument s)) with true
      by (destruct (is_connected s), (instrument s); cbn in *; congruence).
    intros H1 H2 msg H3. cbn.
    destruct (Modbus.device l (List.length (Modbus.requests l)) _);
      [|discriminate H1]. cbn.
    rewrite length_app. cbn [List.length].
    destruct (Modbus.device l (List.length (Modbus.requests l) + 1) _);
      [|discriminate H2]. cbn.
    rewrite !length_app. cbn [List.length].
    replace (List.length (Modbus.requests l) + 1 + 1)%nat
      with (List.length (Modbus.requests l) + 2)%nat by lia.
    rewrite H3. cbn. rewrite <- !app_assoc. reflexivity.
  - intros s' l' E.
    destruct (read_temperature_returns n s l) as (r & s1 & l1 & E1 & H1).
    rewrite E in E1. injection E1 as <- <- <-. destruct H1 as [Hc He].
    split; [exact Hc|]. split; [exact He|].
    intros m. run_sensor. rewrite Hc. cbn.
    destruct (Modbus.device l' _ _); cbn;
      [destruct (Modbus.device l' _ _); cbn;
         [destruct (Modbus.device l' _ _); cbn|]|];
      rewrite <- ?app_assoc; cbn; eexists; reflexivity.
Qed.

Lemma read_temperature_io_failure_witness :
  read_temperature 2 (sensor_up, dead_line)
  = (Returns None,
     (set_is_connected false
        (set_last_error (Some "No communication with the instrument") sensor_up),
      logged [Modbus.read_register 1 1 3 true] dead_line)).
Proof.
  apply (read_temperature_io_failure 2 sensor_up dead_line);
    reflexivity.
Defined.

End SensorFacts.

(** * Properties of the station *)

Module StationFacts.
Import TemperatureStation.

#[local] Arguments RealTemperatureSensor.read_all_temperatures : simpl never.
#[local] Arguments RealTemperatureSensor.disconnect : simpl never.

Ltac run_station :=
  unfold start_detection, stop_detection, _detection_loop_body, on_sensor,
    join, bind, try_except, self, assign, modify, ret, spawn; cbn.

(** The reading that an iteration stores for the temperatures [c1], [c2]. *)
Definition reading_of (inp : Inputs) (c1 c2 : Q) : Reading :=
  {| timestamp := now inp;
     channel1_temperature := round2 c1;
     channel2_temperature := round2 c2 |}.

(** The station after the critical section of an iteration. *)
Definition stored (inp : Inputs) (c1 c2 : Q) (s : t) : t :=
  set_temperature_history
    (append_reading (reading_of inp c1 c2) (temperature_history s))
    (set_current_temperatures
       {| channel1 := Some (round2 c1); channel2 := Some (round2 c2) |} s).

Definition simulated1 (inp : Inputs) : Q := 5 + uniform1 inp.
Definition simulated2 (inp : Inputs) : Q := 24 + uniform2 inp.

Definition hardware_backed (s : t) : bool :=
  use_real_sensor s && is_some (real_sensor s).

(** An iteration of a station that simulates. *)
Lemma body_simulated (inp : Inputs) (s : t) (w : World) :
  hardware_backed s = false ->
  _detection_loop_body inp (s, w)
  = (Returns tt, (stored inp (simulated1 inp) (simulated2 inp) s, w)).
Proof.
  unfold hardware_backed. intros H. run_station. rewrite H. reflexivity.
Qed.

(** The temperatures an iteration keeps from a hardware read. *)
Definition kept (inp : Inputs) (temps : Temperatures) : Q * Q :=
  match channel1 temps, channel2 temps with
  | Some c1, Some c2 => (c1, c2)
  | _, _ => (simulated1 inp, simulated2 inp)
  end.

(** An iteration of a station with a hardware sensor. *)
Lemma body_hardware (inp : Inputs) (s : t) (w : World)
    (sensor sensor' : RealTemperatureSensor.t) (temps : Temperatures)
    (l' : Modbus.Line) :
  use_real_sensor s = true ->
  real_sensor s = Some sensor ->
  RealTemperatureSensor.read_all_temperatures (sensor, line w)
  = (Returns temps, (sensor', l')) ->
  _detection_loop_body inp (s, w)
  = (Returns tt,
     (stored inp (fst (kept inp temps)) (snd (kept inp temps))
        (set_sensor_connection_error
           (if RealTemperatureSensor.is_connected sensor' then None
            else RealTemperatureSensor.last_error sensor')
           (set_real_sensor (Some sensor') s)),
      set_line l' w)).
Proof.
  intros Hu Hs E. run_station. rewrite Hu, Hs. cbn. rewrite Hs, E. cbn.
  unfold kept.
  destruct (RealTemperatureSensor.is_connected sensor'),
    temps as [[c1|] [c2|]]; reflexivity.
Qed.

(** An iteration always ends normally and stores one reading. *)
Lemma body_returns (inp : Inputs) (s : t) (w : World) :
  exists c1 c2 s0 w',
    _detection_loop_body inp (s, w) = (Returns tt, (stored inp c1 c2 s0, w')) /\
    temperature_history s0 = temperature_history s /\
    is_running s0 = is_running s /\
    thread s0 = thread s /\
    live_threads w' = live_threads w /\
    threads_created w' = threads_created w.
Proof.
  destruct (hardware_backed s) eqn:H.
  - unfold hardware_backed in H. apply andb_prop in H as [Hu Hs].
    destruct (real_sensor s) as [sensor|] eqn:Hr; [|discriminate].
    destruct (SensorFacts.read_all_temperatures_returns sensor (line w))
      as (c1 & c2 & sensor' & l' & E & _).
    rewrite (body_hardware inp s w sensor sensor' _ l' Hu Hr E).
    do 4 eexists. split; [reflexivity|]. repeat split.
  - rewrite (body_simulated inp s w H).
    do 4 eexists. split; [reflexivity|]. repeat split.
Qed.

(** *** The history buffer *)

Lemma append_reading_room (r : Reading) (h : list Reading) :
  (List.length h < 100)%nat -> append_reading r h = (h ++ [r])%list.
Proof.
  intros H. unfold append_reading. rewrite length_app. cbn [List.length].
  destruct (Nat.ltb_spec 100 (List.length h + 1)); [lia|reflexivity].
Qed.

Lemma append_reading_full (r oldest : Reading) (rest : list Reading) :
  (100 <= List.length (oldest :: rest))%nat ->
  append_reading r (oldest :: rest) = (rest ++ [r])%list.
Proof.
  intros H. unfold append_reading. rewrite length_app. cbn [List.length] in *.
  destruct (Nat.ltb_spec 100 (S (List.length rest) + 1)); [reflexivity|lia].
Qed.

Lemma append_reading_length (r : Reading) (h : list Reading) :
  (List.length h <= 100)%nat ->
  (List.length (append_reading r h) <= 100)%nat.
Proof.
  intros H. destruct (Nat.lt_ge_cases (List.length h) 100) as [Hlt|Hge].
  - rewrite append_reading_room by exact Hlt.
    rewrite length_app. cbn. lia.
  - destruct h as [|oldest rest]; [cbn in Hge; lia|].
    rewrite append_reading_full by exact Hge.
    rewrite length_app. cbn in *. lia.
Qed.

(** *** The three calls, one by one *)

Definition started (s : t) (w : World) : State :=
  (set_thread (Some (threads_created w))
     (set_is_running true
        (set_current_temperatures no_temperatures
           (set_temperature_history [] s))),
   snd (spawn w)).

Lemma start_detection_spec (s : t) (w : World) :
  start_detection (s, w)
  = (Returns tt, if is_running s then (s, w) else started s w).
Proof. run_station. destruct (is_running s); reflexivity. Qed.

(** What [stop_detection] leaves alone. *)
Definition same_data (s s' : t) : Prop :=
  station_id s' = station_id s /\ name s' = name s /\
  threshold_difference s' = threshold_difference s /\
  use_real_sensor s' = use_real_sensor s /\
  thread s' = thread s /\
  current_temperatures s' = current_temperatures s /\
  temperature_history s' = temperature_history s /\
  sensor_connection_error s' = sensor_connection_error s.

Lemma stop_detection_spec (s : t) (w : World) :
  exists s' w',
    stop_detection (s, w) = (Returns tt, (s', w')) /\
    same_data s s' /\
    is_running s' = false /\
    live_threads w' = live_threads w /\
    threads_created w' = threads_created w /\
    match real_sensor s' with
    | Some sensor' =>
        real_sensor s <> None /\
        RealTemperatureSensor.is_connected sensor' = false /\
        RealTemperatureSensor.instrument sensor' = false
    | None => real_sensor s = None /\ w' = w
    end.
Proof.
  run_station. destruct (thread s); cbn;
    (destruct (real_sensor s) as [sensor|] eqn:Hs; cbn;
     [rewrite Hs;
      destruct (SensorFacts.disconnect_returns sensor (line w))
        as (sensor' & l' & E & Hc & Hi);
      rewrite E; do 2 eexists; (split; [reflexivity|]); cbn;
      repeat split; try assumption; discriminate
     |do 2 eexists; (split; [reflexivity|]); cbn; rewrite Hs;
      repeat split]).
Qed.

Lemma poll_spec (tid : nat) (inp : Inputs) (s : t) (w : World) :
  (existsb (Nat.eqb tid) (live_threads w) && is_running s = true /\
   _detection_loop tid inp (s, w)
   = (Returns tt, snd (_detection_loop_body inp (s, w)))) \/
  (existsb (Nat.eqb tid) (live_threads w) && is_running s = false /\
   exists w',
     _detection_loop tid inp (s, w) = (Returns tt, (s, w')) /\
     (List.length (live_threads w') <= List.length (live_threads w))%nat /\
     (is_running s = true -> w' = w)).
Proof.
  unfold _detection_loop. cbn [fst snd].
  destruct (existsb _ _); cbn [andb].
  - destruct (is_running s) eqn:Hr.
    + left. split; [reflexivity|].
      destruct (body_returns inp s w) as (c1 & c2 & s0 & w' & E & _).
      rewrite E. reflexivity.
    + right. split; [reflexivity|]. eexists. split; [reflexivity|].
      split; [apply filter_length_le|discriminate].
  - right. split; [reflexivity|]. exists w. repeat split. lia.
Qed.

Lemma poll_history (tid : nat) (inp : Inputs) (s : State) :
  (existsb (Nat.eqb tid) (live_threads (snd s)) && is_running (fst s) = true /\
   exists c1 c2,
     temperature_history (fst (step (Poll tid inp) s))
     = append_reading (reading_of inp c1 c2) (temperature_history (fst s))) \/
  (existsb (Nat.eqb tid) (live_threads (snd s)) && is_running (fst s) = false /\
   fst (step (Poll tid inp) s) = fst s).
Proof.
  destruct s as [s w]. cbn [fst snd step].
  destruct (poll_spec tid inp s w) as [[H E]|[H (w' & E & _)]]; rewrite E.
  - left. split; [exact H|].
    destruct (body_returns inp s w) as (c1 & c2 & s0 & w' & E' & Hh & _).
    rewrite E'. cbn. rewrite Hh. eauto.
  - right. split; [exact H|reflexivity].
Qed.

Lemma step_history_bounded (c : call) (s : State) :
  (List.length (temperature_history (fst s)) <= 100)%nat ->
  (List.length (temperature_history (fst (step c s))) <= 100)%nat.
Proof.
  intros H. destruct c as [| |tid inp].
  - destruct s as [s w]. cbn [step]. rewrite start_detection_spec.
    cbn in *. destruct (is_running s); cbn; [exact H|lia].
  - destruct s as [s w]. cbn [step].
    destruct (stop_detection_spec s w) as (s' & w' & E & D & _).
    rewrite E. cbn in *. destruct D as (_ & _ & _ & _ & _ & _ & -> & _).
    exact H.
  - destruct (poll_history tid inp s) as [[_ (c1 & c2 & E)]|[_ E]];
      rewrite E; [apply append_reading_length|]; exact H.
Qed.

(** A station as the display layer makes it, and what a polling iteration
    may take from outside. *)
Definition quiet_world : World :=
  {| line := SensorFacts.dead_line; live_threads := []; threads_created := 0 |}.

Definition demo_station : t :=
  mk 1 "Temperature Station" 10 false false None no_temperatures [] None None.

Definition noon : Datetime.t := Datetime.mk 2024 3 7 12 0 0 0.

Definition demo_inputs : Inputs :=
  {| uniform1 := 1 # 2; uniform2 := 1 # 4; now := noon |}.

(** C1. Whatever the display layer calls and whatever the polling threads
    do, a history of at most 100 readings stays one of at most 100 readings;
    and an iteration of a live thread of a running station puts exactly one
    reading, stamped with the time of the iteration, at the end of the
    history: with fewer than 100 readings nothing else changes, with 100
    the oldest reading goes and the others keep their order. *)
Theorem history_bounded_fifo (cs : list call) (s : State) :
  (List.length (temperature_history (fst s)) <= 100)%nat ->
  (List.length (temperature_history (fst (run cs s))) <= 100)%nat /\
  forall (tid : nat) (inp : Inputs),
    existsb (Nat.eqb tid) (live_threads (snd (run cs s))) = true ->
    is_running (fst (run cs s)) = true ->
    let h := temperature_history (fst (run cs s)) in
    let h' := temperature_history (fst (step (Poll tid inp) (run cs s))) in
    exists r : Reading,
      timestamp r = now inp /\
      ((List.length h < 100)%nat -> h' = (h ++ [r])%list) /\
      (forall oldest rest,
         h = oldest :: rest -> List.length h = 100%nat ->
         h' = (rest ++ [r])%list) /\
      (List.length h' <= 100)%nat.
Proof.
  intros H.
  assert (Hrun : (List.length (temperature_history (fst (run cs s))) <= 100)%nat).
  { revert s H. induction cs as [|c cs IH]; intros s H; [exact H|].
    cbn. apply IH. apply step_history_bounded. exact H. }
  split; [exact Hrun|].
  intros tid inp Hlive Hrunning h h'.
  destruct (poll_history tid inp (run cs s)) as [[_ (c1 & c2 & E)]|[Hno _]].
  - exists (reading_of inp c1 c2). subst h h'. rewrite E.
    split; [reflexivity|]. split; [|split].
    + apply append_reading_room.
    + intros oldest rest Eh Hlen. rewrite Eh in *.
      apply append_reading_full. lia.
    + apply append_reading_length. exact Hrun.
  - rewrite Hlive, Hrunning in Hno. discriminate.
Qed.

Lemma history_bounded_fifo_witness :
  (List.length
     (temperature_history
        (fst (run [Start; Poll 0 demo_inputs; Stop] (demo_station, quiet_world))))
   <= 100)%nat.
Proof.
  apply (history_bounded_fifo [Start; Poll 0 demo_inputs; Stop]
           (demo_station, quiet_world)).
  cbn. lia.
Defined.

(** *** The status snapshot *)

Lemma get_status_both (s : t) (c1 c2 : Q) :
  current_temperatures s = {| channel1 := Some c1; channel2 := Some c2 |} ->
  current_difference (get_status s) = Some (double_sub c2 c1) /\
  is_abnormal (get_status s)
  = Some (Qltb (double_sub c2 c1) (double (threshold_difference s))).
Proof.
  intros H. unfold get_status, get_current_temperatures. rewrite H.
  split; reflexivity.
Qed.

Definition with_temperatures (c1 c2 : Q) : t :=
  set_current_temperatures
    {| channel1 := Some c1; channel2 := Some c2 |} demo_station.

(** The difference is the one of the doubles: 16.4 - 6.4 is
    9.999999999999998 and 20.06 - 10.06 likewise, below a threshold of 10,
    and 10.1 - 0.1 is 10.0, not below it. *)
Lemma get_status_subtracts_in_binary64 :
  is_abnormal (get_status (with_temperatures (64 # 10) (164 # 10))) = Some true /\
  is_abnormal (get_status (with_temperatures (1006 # 100) (2006 # 100)))
  = Some true /\
  is_abnormal (get_status (with_temperatures (1 # 10) (101 # 10))) = Some false.
Proof. repeat split; vm_compute; reflexivity. Qed.

(** C2. With both current temperatures present, the status says abnormal
    exactly when channel 2 minus channel 1, subtracted as doubles, is below
    the threshold, so a difference equal to the threshold is normal; under a
    threshold of 10.0, 5.00 and 14.99 are abnormal, 5.00 and 15.00 are
    normal. *)
Theorem abnormal_iff_below_threshold (s : t) (c1 c2 : Q) :
  current_temperatures s = {| channel1 := Some c1; channel2 := Some c2 |} ->
  current_difference (get_status s) = Some (double_sub c2 c1) /\
  (is_abnormal (get_status s) = Some true
   <-> double_sub c2 c1 < double (threshold_difference s)) /\
  (is_abnormal (get_status s) = Some false
   <-> double (threshold_difference s) <= double_sub c2 c1) /\
  (double_sub c2 c1 == double (threshold_difference s) ->
   is_abnormal (get_status s) = Some false) /\
  (threshold_difference s = 10 -> c1 = 5 -> c2 = 1499 # 100 ->
   is_abnormal (get_status s) = Some true) /\
  (threshold_difference s = 10 -> c1 = 5 -> c2 = 15 ->
   is_abnormal (get_status s) = Some false).
Proof.
  intros H. destruct (get_status_both s c1 c2 H) as [Hd Ha].
  rewrite Ha.
  assert (Ht : Some (Qltb (double_sub c2 c1) (double (threshold_difference s)))
               = Some true
               <-> double_sub c2 c1 < double (threshold_difference s)).
  { rewrite <- Qltb_lt. split; [congruence|intros ->; reflexivity]. }
  assert (Hf : Some (Qltb (double_sub c2 c1) (double (threshold_difference s)))
               = Some false
               <-> double (threshold_difference s) <= double_sub c2 c1).
  { rewrite <- Qltb_ge. split; [congruence|intros ->; reflexivity]. }
  split; [exact Hd|]. split; [exact Ht|]. split; [exact Hf|].
  split; [|split].
  - intros E. apply Hf. rewrite E. apply Qle_refl.
  - intros -> -> ->. vm_compute. reflexivity.
  - intros -> -> ->. vm_compute. reflexivity.
Qed.

Lemma abnormal_iff_below_threshold_witness :
  is_abnormal (get_status (with_temperatures 5 (1499 # 100))) = Some true /\
  is_abnormal (get_status (with_temperatures 5 15)) = Some false.
Proof.
  split.
  - apply (abnormal_iff_below_threshold
             (with_temperatures 5 (1499 # 100)) 5 (1499 # 100));
      reflexivity.
  - apply (abnormal_iff_below_threshold (with_temperatures 5 15) 5 15);
      reflexivity.
Defined.

(** C5, as stated, fails: a station without current temperatures reports
    the abnormal flag as [False], not as [None]. *)
Lemma abnormal_flag_is_not_null :
  channel1 (current_temperatures demo_station) = None /\
  current_difference (get_status demo_station) = None /\
  is_abnormal (get_status demo_station) = Some false /\
  is_abnormal (get_status demo_station) <> None.
Proof. repeat split. discriminate. Qed.

(** C5, amended. When a current temperature is absent, the status holds no
    difference ([None]) and the abnormal flag is [False]: neither is
    computed from the channels. *)
Theorem status_without_temperatures (s : t) :
  channel1 (current_temperatures s) = None \/
  channel2 (current_temperatures s) = None ->
  current_difference (get_status s) = None /\
  is_abnormal (get_status s) = Some false.
Proof.
  unfold get_status, get_current_temperatures.
  destruct (current_temperatures s) as [[c1|] [c2|]]; cbn;
    intros [H|H]; try discriminate; split; reflexivity.
Qed.

Lemma status_without_temperatures_witness :
  current_difference (get_status demo_station) = None /\
  is_abnormal (get_status demo_station) = Some false.
Proof.
  apply (status_without_temperatures demo_station). left. reflexivity.
Defined.

(** *** The simulated generator *)

(** C6. For draws within the bounds of [random.uniform(-5.0, 8.0)] and
    [random.uniform(-4.0, 7.0)], the generator returns both channels, the
    first in [0, 13] and the second in [20, 31]. *)
Theorem simulated_temperatures_in_range (inp : Inputs) :
  -5 <= uniform1 inp <= 8 ->
  -4 <= uniform2 inp <= 7 ->
  exists c1 c2 : Q,
    _get_simulated_temperatures inp
    = {| channel1 := Some c1; channel2 := Some c2 |} /\
    0 <= c1 <= 13 /\ 20 <= c2 <= 31.
Proof.
  intros [H1 H1'] [H2 H2'].
  exists (5 + uniform1 inp), (24 + uniform2 inp).
  split; [reflexivity|]. repeat split; lra.
Qed.

Lemma simulated_temperatures_in_range_witness :
  exists c1 c2 : Q,
    _get_simulated_temperatures demo_inputs
    = {| channel1 := Some c1; channel2 := Some c2 |} /\
    0 <= c1 <= 13 /\ 20 <= c2 <= 31.
Proof.
  apply (simulated_temperatures_in_range demo_inputs);
    cbn; split; discriminate.
Defined.

(** *** Starting and stopping *)

(** C7. Starting a stopped station empties the history and sets both
    current temperatures to [None], and only then makes the polling thread:
    right after the call the history read by [get_temperature_history] is
    empty, the station runs and its new thread is alive. So a stop followed
    by a start never keeps a reading. *)
Theorem start_clears_history (s : t) (w : World) :
  is_running s = false ->
  exists (s' : t) (w' : World),
    start_detection (s, w) = (Returns tt, (s', w')) /\
    temperature_history s' = [] /\
    current_temperatures s' = {| channel1 := None; channel2 := None |} /\
    get_temperature_history s' = [] /\
    is_running s' = true /\
    thread s' = Some (threads_created w) /\
    live_threads w' = (live_threads w ++ [threads_created w])%list /\
    line w' = line w /\
    forall (s0 : t) (w0 : World),
      get_temperature_history (fst (run [Stop; Start] (s0, w0))) = [].
Proof.
  intros H.
  assert (Hcycle : forall (s0 : t) (w0 : World),
             get_temperature_history (fst (run [Stop; Start] (s0, w0))) = []).
  { intros s0 w0.
    change (run [Stop; Start] (s0, w0))
      with (snd (start_detection (snd (stop_detection (s0, w0))))).
    destruct (stop_detection_spec s0 w0) as (s1 & w1 & E & _ & Hr & _).
    rewrite E. cbn [snd]. rewrite start_detection_spec, Hr. reflexivity. }
  rewrite start_detection_spec, H.
  do 2 eexists. split; [reflexivity|]. repeat split. exact Hcycle.
Qed.

Lemma start_clears_history_witness :
  exists (s' : t) (w' : World),
    start_detection
      (stored demo_inputs 5 24 demo_station, quiet_world)
    = (Returns tt, (s', w')) /\
    temperature_history s' = [] /\
    current_temperatures s' = {| channel1 := None; channel2 := None |} /\
    get_temperature_history s' = [].
Proof.
  destruct (start_clears_history
              (stored demo_inputs 5 24 demo_station) quiet_world)
    as (s' & w' & E & H1 & H2 & H3 & _); [reflexivity|].
  exists s', w'. repeat split; assumption.
Defined.

(** The polling threads that are alive. *)
Definition polling_tasks (s : State) : nat := List.length (live_threads (snd s)).

Lemma poll_polling_tasks (tid : nat) (inp : Inputs) (s : State) :
  (polling_tasks (step (Poll tid inp) s) <= polling_tasks s)%nat.
Proof.
  destruct s as [s w]. unfold polling_tasks. cbn [step].
  destruct (poll_spec tid inp s w) as [[_ E]|[_ (w' & E & Hle & _)]];
    rewrite E; cbn [snd]; [|exact Hle].
  destruct (body_returns inp s w) as (c1 & c2 & s0 & w' & E' & _ & _ & _ & Hl & _).
  rewrite E'. cbn [snd]. rewrite Hl. apply Nat.le_refl.
Qed.

(** A stopped station with a hardware sensor on a dead line, where every
    read waits for the timeout of the serial port. *)
Definition idle_hardware_station : State :=
  (mk 1 "Temperature Station" 10 true false None no_temperatures []
      (Some SensorFacts.sensor_up) None,
   quiet_world).

(** C8. The code misses what its guard and its join are there for: the join
    of [stop_detection] gives up after one second, so a station can be
    started again while the thread of the previous session is still in an
    iteration. That thread then finds the running flag, which the new
    session uses again, set, and goes on: after start, stop, start two
    threads poll, and both add readings. *)
Lemma restart_leaves_two_polling_tasks :
  let s := run [Start; Stop; Start] idle_hardware_station in
  let s' := run [Poll 0 demo_inputs; Poll 1 demo_inputs] s in
  live_threads (snd s) = [0; 1]%nat /\
  is_running (fst s) = true /\
  live_threads (snd s') = [0; 1]%nat /\
  List.length (temperature_history (fst s')) = 2%nat /\
  ~ (polling_tasks s <= 1)%nat.
Proof.
  cbv zeta. repeat split; try (vm_compute; reflexivity).
  unfold polling_tasks.
  replace (live_threads (snd (run [Start; Stop; Start] idle_hardware_station)))
    with [0; 1]%nat by (vm_compute; reflexivity).
  cbn. lia.
Qed.

(** Starting a station that runs changes nothing: not the history, the
    current temperatures or the flag, and no thread is made. No call brings
    the number of polling threads above one as long as a stopped station is
    started only when the thread of its previous session has ended. *)
Theorem start_while_running_is_noop (s : State) :
  (is_running (fst s) = true -> start_detection s = (Returns tt, s)) /\
  forall c : call,
    (polling_tasks s <= 1)%nat ->
    (c = Start -> is_running (fst s) = true \/ live_threads (snd s) = []) ->
    (polling_tasks (step c s) <= 1)%nat.
Proof.
  destruct s as [s w]. cbn [fst snd]. split.
  - intros H. rewrite start_detection_spec, H. reflexivity.
  - intros c Hone Hsafe. destruct c as [| |tid inp].
    + cbn [step]. rewrite start_detection_spec.
      destruct (is_running s); [exact Hone|].
      destruct (Hsafe eq_refl) as [H|H]; [discriminate|].
      unfold polling_tasks. cbn. rewrite H. cbn. lia.
    + cbn [step].
      destruct (stop_detection_spec s w) as (s' & w' & E & _ & _ & Hl & _).
      rewrite E. unfold polling_tasks in *. cbn [snd] in *. rewrite Hl.
      exact Hone.
    + eapply Nat.le_trans; [apply poll_polling_tasks|exact Hone].
Qed.

(** A station in the middle of a session. *)
Definition running_station : State :=
  run [Start; Poll 0 demo_inputs] (demo_station, quiet_world).

Lemma start_while_running_is_noop_witness :
  start_detection running_station = (Returns tt, running_station) /\
  (polling_tasks (step Start running_station) <= 1)%nat.
Proof.
  split.
  - apply (proj1 (start_while_running_is_noop running_station)).
    reflexivity.
  - apply (proj2 (start_while_running_is_noop running_station) Start).
    + unfold polling_tasks. cbn. lia.
    + intros _. left. reflexivity.
Defined.

Lemma export_to_csv_same_data (s s' : t) :
  same_data s s' -> export_to_csv s' = export_to_csv s.
Proof.
  intros (Hi & Hn & _ & _ & _ & _ & Hh & _). unfold export_to_csv.
  rewrite Hi, Hn, Hh. reflexivity.
Qed.

(** C10. Stopping a station keeps the history and the current
    temperatures: [stop_detection] clears the running flag and disconnects
    the sensor, nothing else. What [get_temperature_history] and
    [export_to_csv] give is the same before and after, also after a second
    stop; the readings go at the next start. *)
Theorem stop_keeps_history (s : t) (w : World) :
  exists (s' : t) (w' : World),
    stop_detection (s, w) = (Returns tt, (s', w')) /\
    temperature_history s' = temperature_history s /\
    current_temperatures s' = current_temperatures s /\
    get_temperature_history s' = get_temperature_history s /\
    export_to_csv s' = export_to_csv s /\
    is_running s' = false /\
    (forall sensor', real_sensor s' = Some sensor' ->
       RealTemperatureSensor.is_connected sensor' = false) /\
    (real_sensor s = None -> s' = set_is_running false s /\ w' = w) /\
    get_temperature_history (fst (step Stop (s', w')))
    = get_temperature_history s /\
    get_temperature_history (fst (step Start (s', w'))) = [].
Proof.
  destruct (stop_detection_spec s w) as (s' & w' & E & D & Hr & _ & _ & Hs).
  exists s', w'. split; [exact E|].
  assert (Hh : temperature_history s' = temperature_history s)
    by (destruct D as (_ & _ & _ & _ & _ & _ & H & _); exact H).
  assert (Hc : current_temperatures s' = current_temperatures s)
    by (destruct D as (_ & _ & _ & _ & _ & H & _); exact H).
  assert (Hnone : real_sensor s = None -> s' = set_is_running false s /\ w' = w).
  { intros Hn. revert E. run_station. rewrite Hn.
    destruct (thread s); cbn; intros E; injection E as <- <-;
      split; reflexivity. }
  split; [exact Hh|]. split; [exact Hc|]. split; [exact Hh|].
  split; [apply export_to_csv_same_data; exact D|].
  split; [exact Hr|].
  split; [intros sensor' Hs'; rewrite Hs' in Hs; apply Hs|].
  split; [exact Hnone|]. split.
  - cbn [step].
    destruct (stop_detection_spec s' w') as (s2 & w2 & E2 & D2 & _).
    rewrite E2. cbn [fst snd]. unfold get_temperature_history.
    destruct D2 as (_ & _ & _ & _ & _ & _ & -> & _). exact Hh.
  - cbn [step]. rewrite start_detection_spec, Hr. reflexivity.
Qed.

Lemma stop_keeps_history_witness :
  exists (s' : t) (w' : World),
    stop_detection running_station = (Returns tt, (s', w')) /\
    temperature_history s' = temperature_history (fst running_station) /\
    s' = set_is_running false (fst running_station).
Proof.
  destruct (stop_keeps_history (fst running_station) (snd running_station))
    as (s' & w' & E & Hh & _ & _ & _ & _ & _ & Hn & _).
  exists s', w'. split; [exact E|]. split; [exact Hh|].
  apply Hn. reflexivity.
Defined.

(** *** Failing over to simulated values *)

(** A line on which the third request fails and every other one succeeds,
    and a station with a hardware sensor on it, started. *)
Definition flaky_line : Modbus.Line :=
  {| Modbus.device := fun n _ =>
       if Nat.eqb n 2
       then Modbus.Failure "No communication with the instrument"
       else Modbus.Value (234 # 10);
     Modbus.requests := [] |}.

Definition flaky_world : World :=
  {| line := flaky_line; live_threads := []; threads_created := 0 |}.

Definition hardware_station : State :=
  match __init__ 1 "Temperature Station" 10 true "COM4" flaky_world with
  | (Returns s, w) => run [Start] (s, w)
  | (Raises _, w) => (demo_station, w)
  end.

(** The status of the station after an iteration. *)
Definition status_after (inp : Inputs) (s : State) : Status :=
  get_status (fst (snd (_detection_loop_body inp s))).

(** C3, as stated, fails: when the read of channel 1 fails and the read of
    channel 2 reconnects and succeeds, the iteration stores simulated
    values, and the status says that the sensor is connected and shows no
    error. *)
Lemma channel1_failure_is_not_reported :
  let s := hardware_station in
  use_real_sensor (fst s) = true /\
  (exists sensor st',
     real_sensor (fst s) = Some sensor /\
     RealTemperatureSensor.read_all_temperatures (sensor, line (snd s))
     = (Returns {| channel1 := None; channel2 := Some (234 # 10) |}, st')) /\
  temperature_history (fst (snd (_detection_loop_body demo_inputs s)))
  = [reading_of demo_inputs (simulated1 demo_inputs) (simulated2 demo_inputs)] /\
  sensor_connected (status_after demo_inputs s) = Some true /\
  sensor_error (status_after demo_inputs s) = None /\
  sensor_connected (status_after demo_inputs s) <> Some false.
Proof.
  cbv zeta. split; [reflexivity|]. split.
  - do 2 eexists. split; vm_compute; reflexivity.
  - repeat split; try (vm_compute; reflexivity). vm_compute. discriminate.
Qed.

(** C3, amended. When the hardware read of an iteration misses a channel,
    the iteration stores simulated values: it rounds them, makes them the
    current temperatures and adds a reading to the history. If channel 2 is
    the missing one, the sensor is down after the iteration and the
    status reports [sensor_connected = False] with the message of the
    failure. If only channel 1 is missing, the read of channel 2 has
    reconnected the sensor, and the status reports it as connected, with
    no error. *)
Theorem failover_stores_simulated_reading
    (inp : Inputs) (s : t) (w : World)
    (sensor sensor' : RealTemperatureSensor.t) (temps : Temperatures)
    (l' : Modbus.Line) :
  use_real_sensor s = true ->
  real_sensor s = Some sensor ->
  RealTemperatureSensor.read_all_temperatures (sensor, line w)
  = (Returns temps, (sensor', l')) ->
  channel1 temps = None \/ channel2 temps = None ->
  exists s' : t,
    _detection_loop_body inp (s, w) = (Returns tt, (s', set_line l' w)) /\
    current_temperatures s'
    = {| channel1 := Some (round2 (5 + uniform1 inp));
         channel2 := Some (round2 (24 + uniform2 inp)) |} /\
    temperature_history s'
    = append_reading
        {| timestamp := now inp;
           channel1_temperature := round2 (5 + uniform1 inp);
           channel2_temperature := round2 (24 + uniform2 inp) |}
        (temperature_history s) /\
    (channel2 temps = None ->
     sensor_connected (get_status s') = Some false /\
     exists msg,
       RealTemperatureSensor.last_error sensor' = Some msg /\
       sensor_error (get_status s') = Some msg) /\
    (channel2 temps <> None ->
     sensor_connected (get_status s') = Some true /\
     sensor_error (get_status s') = None).
Proof.
  intros Hu Hs E Hmiss.
  assert (Hleft : SensorFacts.left_as (channel2 temps) sensor').
  { destruct (SensorFacts.read_all_temperatures_returns sensor (line w))
      as (c1 & c2 & s1 & l1 & E1 & H1).
    rewrite E in E1. injection E1 as -> <- <-. exact H1. }
  eexists. split; [apply (body_hardware inp s w sensor sensor' temps l' Hu Hs E)|].
  assert (Hkept : kept inp temps = (simulated1 inp, simulated2 inp)).
  { unfold kept. destruct temps as [[c1|] [c2|]]; cbn in Hmiss |- *;
      try reflexivity. destruct Hmiss; discriminate. }
  rewrite Hkept. unfold get_status. cbn. rewrite Hu. cbn.
  split; [reflexivity|]. split; [reflexivity|].
  destruct (channel2 temps) as [c2|]; cbn in Hleft.
  - destruct Hleft as (Hc & _ & He). rewrite Hc. split.
    + intros H. discriminate.
    + intros _. split; reflexivity.
  - destruct Hleft as (Hc & msg & He). rewrite Hc, He. split.
    + intros _. split; [reflexivity|]. exists msg. split; reflexivity.
    + intros H. contradiction.
Qed.

(** A running station whose sensor is up, on a dead line. *)
Definition cut_off_station : State :=
  (mk 1 "Temperature Station" 10 true true (Some 0%nat) no_temperatures []
      (Some SensorFacts.sensor_up) None,
   {| line := SensorFacts.dead_line; live_threads := [0%nat];
      threads_created := 1 |}).

Lemma failover_stores_simulated_reading_witness :
  exists (s' : t) (w' : World),
    _detection_loop_body demo_inputs cut_off_station = (Returns tt, (s', w')) /\
    temperature_history s'
    = [reading_of demo_inputs (simulated1 demo_inputs) (simulated2 demo_inputs)] /\
    sensor_connected (get_status s') = Some false /\
    sensor_error (get_status s') = Some "No communication with the instrument".
Proof.
  destruct (failover_stores_simulated_reading demo_inputs
              (fst cut_off_station) (snd cut_off_station)
              SensorFacts.sensor_up _ _ _
              eq_refl eq_refl eq_refl (or_intror eq_refl))
    as (s' & E & _ & Hh & Hdown & _).
  destruct (Hdown eq_refl) as (Hc & msg & Hm & He).
  exists s'. eexists. split; [exact E|]. split; [exact Hh|].
  split; [exact Hc|]. rewrite He, <- Hm. reflexivity.
Defined.

End StationFacts.

(** * Properties of the CSV export *)

Module ExportFacts.
Import TemperatureStation.

(** The text the export is compared with: the header line, a reading as a
    line, and the lines of a history one after the other. *)
Definition header_line : string :=
  "Timestamp,Channel1_Temperature_Celsius,Channel2_Temperature_Celsius,Station_Name,Station_ID"
  ++ Csv.lineterminator.

Definition row_line (s : t) (r : Reading) : string :=
  Datetime.strftime (timestamp r) ++ "," ++
  str_float (channel1_temperature r) ++ "," ++
  str_float (channel2_temperature r) ++ "," ++
  Csv.field (name s) ++ "," ++
  str_int (station_id s) ++ Csv.lineterminator.

Fixpoint rows_text (s : t) (rs : list Reading) : string :=
  match rs with
  | [] => ""
  | r :: rs' => row_line s r ++ rows_text s rs'
  end.

(** A text of the given shape: a capital letter of the shape stands for a
    decimal digit, any other character for itself. *)
Definition is_capital (c : ascii) : bool :=
  (65 <=? nat_of_ascii c)%nat && (nat_of_ascii c <=? 90)%nat.

Fixpoint has_shape (shape s : string) : bool :=
  match shape, s with
  | EmptyString, EmptyString => true
  | String p shape', String c s' =>
      (if is_capital p then is_digit c else Ascii.eqb p c)
      && has_shape shape' s'
  | _, _ => false
  end.

(** A float with exactly two decimals, as ['%.2f' % x] writes it. *)
Definition two_decimals (x : Q) : string :=
  let k := Z.abs (round_half_even (x * 100)) in
  (if (Qnum x <? 0)%Z then "-" else "") ++
  str_int (k / 100) ++ "." ++ pad2 (k mod 100).

(** The export as the claim words it: like [export_to_csv], with the
    temperatures written with exactly two decimals. *)
Definition export_to_csv_two_decimals (s : t) : string :=
  fold_left
    (fun output reading =>
       Csv.writerow
         [Datetime.strftime (timestamp reading);
          two_decimals (channel1_temperature reading);
          two_decimals (channel2_temperature reading);
          name s;
          str_int (station_id s)]
         output)
    (temperature_history s) (Csv.writerow header "").

(** *** Strings *)

Lemma string_app_assoc (a b c : string) : (a ++ b) ++ c = a ++ (b ++ c).
Proof. induction a as [|x a IH]; cbn; [reflexivity|]. now rewrite IH. Qed.

Lemma needs_quotes_app (a b : string) :
  Csv.needs_quotes (a ++ b) = Csv.needs_quotes a || Csv.needs_quotes b.
Proof.
  induction a as [|x a IH]; cbn; [reflexivity|].
  rewrite IH. apply orb_assoc.
Qed.

Lemma field_plain (s : string) :
  Csv.needs_quotes s = false -> Csv.field s = s.
Proof. unfold Csv.field. now intros ->. Qed.

Ltac digit_cases k :=
  let H := fresh in
  assert (H : (k = 0 \/ k = 1 \/ k = 2 \/ k = 3 \/ k = 4 \/
               k = 5 \/ k = 6 \/ k = 7 \/ k = 8 \/ k = 9)%Z) by lia;
  repeat (destruct H as [H|H]; [rewrite H; reflexivity|]);
  rewrite H; reflexivity.

Lemma is_digit_digit (k : Z) : (0 <= k <= 9)%Z -> is_digit (digit k) = true.
Proof. intros Hk. digit_cases k. Qed.

Lemma special_digit (k : Z) : (0 <= k <= 9)%Z -> Csv.special (digit k) = false.
Proof. intros Hk. digit_cases k. Qed.

Lemma needs_quotes_uint (d : Decimal.uint) :
  Csv.needs_quotes (NilEmpty.string_of_uint d) = false.
Proof. induction d; cbn; auto. Qed.

Lemma needs_quotes_str_int (n : Z) : Csv.needs_quotes (str_int n) = false.
Proof.
  unfold str_int, NilZero.string_of_int, NilZero.string_of_uint.
  destruct (Z.to_int n) as [d|d]; destruct d; cbn;
    auto using needs_quotes_uint.
Qed.

Lemma needs_quotes_frac_digits (fuel : nat) (r d : Z) :
  (0 <= r < d)%Z -> Csv.needs_quotes (frac_digits fuel r d) = false.
Proof.
  revert r. induction fuel as [|fuel IH]; intros r Hr; [reflexivity|].
  cbn [frac_digits Csv.needs_quotes].
  rewrite special_digit by (Z.to_euclidean_division_equations; nia).
  destruct (10 * r mod d =? 0)%Z; [reflexivity|].
  apply IH. apply Z.mod_pos_bound. lia.
Qed.

Lemma needs_quotes_str_float (x : Q) : Csv.needs_quotes (str_float x) = false.
Proof.
  unfold str_float. rewrite !needs_quotes_app, needs_quotes_str_int.
  rewrite needs_quotes_frac_digits by (apply Z.mod_pos_bound; lia).
  destruct (Qnum x <? 0)%Z; reflexivity.
Qed.

Lemma string_app_nil_r (a : string) : a ++ "" = a.
Proof. induction a as [|x a IH]; cbn; [reflexivity|]. now rewrite IH. Qed.

(** *** Timestamps *)

Lemma strftime_shape (d : Datetime.t) :
  Datetime.valid d ->
  has_shape "YYYY-MM-DD HH:MM:SS" (Datetime.strftime d) = true.
Proof.
  intros (Hy & Hm & Hd & Hh & Hmi & Hs).
  unfold Datetime.strftime, pad4, pad2.
  cbn -[digit is_digit Z.div Z.modulo].
  rewrite !is_digit_digit by (Z.to_euclidean_division_equations; lia).
  reflexivity.
Qed.

Lemma needs_quotes_strftime (d : Datetime.t) :
  Datetime.valid d -> Csv.needs_quotes (Datetime.strftime d) = false.
Proof.
  intros (Hy & Hm & Hd & Hh & Hmi & Hs).
  unfold Datetime.strftime, pad4, pad2.
  cbn -[digit Csv.special Z.div Z.modulo].
  rewrite !special_digit by (Z.to_euclidean_division_equations; lia).
  reflexivity.
Qed.

(** *** Rows *)

Lemma writerow_reading (s : t) (r : Reading) (output : string) :
  Datetime.valid (timestamp r) ->
  Csv.writerow
    [Datetime.strftime (timestamp r);
     str_float (channel1_temperature r);
     str_float (channel2_temperature r);
     name s;
     str_int (station_id s)]
    output
  = output ++ row_line s r.
Proof.
  intros Hv. unfold Csv.writerow, row_line. cbn [map String.concat].
  rewrite (field_plain _ (needs_quotes_strftime _ Hv)).
  rewrite !(field_plain _ (needs_quotes_str_float _)).
  rewrite (field_plain _ (needs_quotes_str_int _)).
  rewrite !string_app_assoc. reflexivity.
Qed.

Lemma fold_rows (s : t) (rs : list Reading) (output : string) :
  Forall (fun r => Datetime.valid (timestamp r)) rs ->
  fold_left
    (fun output reading =>
       Csv.writerow
         [Datetime.strftime (timestamp reading);
          str_float (channel1_temperature reading);
          str_float (channel2_temperature reading);
          name s;
          str_int (station_id s)]
         output)
    rs output
  = output ++ rows_text s rs.
Proof.
  intros Hv. revert output.
  induction Hv as [|r rs Hr _ IH]; intros output; cbn [fold_left rows_text].
  - symmetry. apply string_app_nil_r.
  - rewrite (writerow_reading s r output Hr), IH.
    apply string_app_assoc.
Qed.

(** *** Rounded temperatures as text *)

Lemma round_half_even_hundredths (k : Z) :
  round_half_even ((k # 100) * 100) = k.
Proof.
  unfold round_half_even, Qmult. cbn [Qnum Qden].
  change (Z.pos (100 * 1)) with 100%Z.
  rewrite Z.div_mul, Z.mod_mul by discriminate. reflexivity.
Qed.

Lemma frac_digits_hundredths (m : Z) :
  (0 <= m < 100)%Z ->
  frac_digits 17 m 100
  = if (m mod 10 =? 0)%Z
    then String (digit (m / 10)) ""
    else String (digit (m / 10)) (String (digit (m mod 10)) "").
Proof.
  intros Hm.
  assert (H1 : (10 * m / 100 = m / 10)%Z)
    by (Z.to_euclidean_division_equations; lia).
  assert (H2 : (10 * m mod 100 = 10 * (m mod 10))%Z)
    by (Z.to_euclidean_division_equations; lia).
  assert (H3 : (10 * (10 * (m mod 10)) / 100 = m mod 10)%Z)
    by (Z.to_euclidean_division_equations; lia).
  assert (H4 : (10 * (10 * (m mod 10)) mod 100 = 0)%Z)
    by (Z.to_euclidean_division_equations; lia).
  change (frac_digits 17 m 100)
    with (String (digit (10 * m / 100))
            (if (10 * m mod 100 =? 0)%Z then ""
             else String (digit (10 * (10 * m mod 100) / 100))
                    (if (10 * (10 * m mod 100) mod 100 =? 0)%Z then ""
                     else frac_digits 15 (10 * (10 * m mod 100) mod 100) 100))).
  rewrite H1, H2, H3, H4.
  destruct (Z.eqb_spec (m mod 10) 0) as [E|E].
  - rewrite E. reflexivity.
  - destruct (Z.eqb_spec (10 * (m mod 10)) 0); [lia|reflexivity].
Qed.

Lemma str_float_round2 (y : Q) :
  let x := round2 y in
  let k := round_half_even (y * 100) in
  ((k mod 10 <> 0)%Z -> str_float x = two_decimals x) /\
  ((k mod 10 = 0)%Z -> two_decimals x = str_float x ++ "0").
Proof.
  intros x k. subst x. unfold round2. fold k.
  unfold str_float, two_decimals. rewrite round_half_even_hundredths.
  cbn [Qnum Qden].
  rewrite frac_digits_hundredths by (apply Z.mod_pos_bound; lia).
  unfold pad2.
  assert (Hk : ((Z.abs k mod 100) mod 10 = 0 <-> k mod 10 = 0)%Z)
    by (Z.to_euclidean_division_equations; lia).
  split; intros H.
  - destruct (Z.eqb_spec ((Z.abs k mod 100) mod 10) 0) as [E|E];
      [apply Hk in E; contradiction|reflexivity].
  - destruct (Z.eqb_spec ((Z.abs k mod 100) mod 10) 0) as [E|E];
      [|apply Hk in H; contradiction].
    rewrite E, !string_app_assoc. reflexivity.
Qed.

(** C4, as stated, fails: a temperature is written as Python prints a
    float, so a trailing zero is dropped; the reading 5.5 / 24.25 gives the
    row [...,5.5,24.25,...], not [...,5.50,24.25,...]. *)
Lemma export_drops_trailing_zero :
  let s := fst StationFacts.running_station in
  temperature_history s
  = [ {| timestamp := StationFacts.noon;
         channel1_temperature := 550 # 100;
         channel2_temperature := 2425 # 100 |} ] /\
  export_to_csv s
  = header_line
    ++ "2024-03-07 12:00:00,5.5,24.25,Temperature Station,1"
    ++ Csv.lineterminator /\
  export_to_csv_two_decimals s
  = header_line
    ++ "2024-03-07 12:00:00,5.50,24.25,Temperature Station,1"
    ++ Csv.lineterminator /\
  export_to_csv s <> export_to_csv_two_decimals s.
Proof.
  cbv zeta. repeat split; try (vm_compute; reflexivity).
  vm_compute. discriminate.
Qed.

(** C4, amended. With an empty history the export is the header line and
    nothing else. With N readings it is the header line and then N lines,
    one for each reading in the order of the history: the timestamp as
    YYYY-MM-DD HH:MM:SS, the two temperatures, the name and the id of the
    station. A temperature is written as Python prints a float: a rounded
    temperature has two decimals when the second is not zero, and loses
    the trailing zero otherwise (5.5, not 5.50). *)
Theorem export_to_csv_text (s : t) :
  Forall (fun r => Datetime.valid (timestamp r)) (temperature_history s) ->
  export_to_csv s = header_line ++ rows_text s (temperature_history s) /\
  (temperature_history s = [] -> export_to_csv s = header_line) /\
  (forall r : Reading,
     In r (temperature_history s) ->
     has_shape "YYYY-MM-DD HH:MM:SS" (Datetime.strftime (timestamp r)) = true) /\
  (forall y : Q,
     let x := round2 y in
     let k := round_half_even (y * 100) in
     ((k mod 10 <> 0)%Z -> str_float x = two_decimals x) /\
     ((k mod 10 = 0)%Z -> two_decimals x = str_float x ++ "0")).
Proof.
  intros Hv.
  assert (E : export_to_csv s
              = header_line ++ rows_text s (temperature_history s)).
  { unfold export_to_csv. rewrite (fold_rows s _ _ Hv). reflexivity. }
  split; [exact E|]. split; [|split].
  - intros Hnil. rewrite E, Hnil. apply string_app_nil_r.
  - intros r Hr. apply strftime_shape.
    rewrite Forall_forall in Hv. apply Hv. exact Hr.
  - exact str_float_round2.
Qed.

Lemma export_to_csv_text_witness :
  export_to_csv (fst StationFacts.running_station)
  = header_line
    ++ rows_text (fst StationFacts.running_station)
         (temperature_history (fst StationFacts.running_station)).
Proof.
  apply (export_to_csv_text (fst StationFacts.running_station)).
  repeat constructor; vm_compute; discriminate.
Defined.

End ExportFacts.

(** * More on the sensor: connecting, reading, disconnecting *)

Module SensorMore.
Import RealTemperatureSensor.
Import SensorFacts.

(** The requests of [setup_sensor]. *)
Definition connect_request (s : t) : Modbus.request :=
  Modbus.Instrument (com_port s) (slave_address s).

Definition probe_request : Modbus.request := Modbus.read_register 0 1 3 true.

(** The configuration of a sensor. *)
Definition same_config (s s' : t) : Prop :=
  com_port s' = com_port s /\ slave_address s' = slave_address s /\
  baudrate s' = baudrate s /\ timeout s' = timeout s.

(** A line on which every request succeeds. *)
Definition healthy_line : Modbus.Line :=
  {| Modbus.device := fun _ _ => Modbus.Value (234 # 10);
     Modbus.requests := [] |}.

Lemma nth_reply_logged (l : Modbus.Line) (rqs : list Modbus.request)
    (k : nat) (rq : Modbus.request) :
  nth_reply (logged rqs l) k rq = nth_reply l (List.length rqs + k) rq.
Proof.
  unfold nth_reply, logged. cbn. rewrite length_app.
  f_equal. lia.
Qed.

(** X1. [setup_sensor] never raises. It returns [True] exactly when the port
    opens and the probe of register 0 is answered, and [is_connected] is the
    value it returns. When the port does not open, nothing else is asked and
    the instrument is the one from before; when the probe fails, the new
    instrument stays. [last_error] is the message of the failure, or [None]
    after a success. *)
Theorem setup_sensor_outcome (s : t) (l : Modbus.Line) :
  let opened := nth_reply l 0 (connect_request s) in
  let probed := nth_reply l 1 probe_request in
  exists (s' : t) (l' : Modbus.Line),
    setup_sensor (s, l)
    = (Returns (is_value opened && is_value probed), (s', l')) /\
    is_connected s' = is_value opened && is_value probed /\
    match opened with
    | Modbus.Failure msg =>
        last_error s' = Some msg /\ instrument s' = instrument s /\
        l' = logged [connect_request s] l
    | Modbus.Value _ =>
        instrument s' = true /\
        l' = logged [connect_request s; probe_request] l /\
        last_error s'
        = match probed with
          | Modbus.Failure msg => Some msg
          | Modbus.Value _ => None
          end
    end.
Proof.
  unfold nth_reply, connect_request, probe_request, logged.
  rewrite Nat.add_0_r. run_sensor.
  destruct (Modbus.device l (List.length (Modbus.requests l)) _); cbn.
  - rewrite length_app. cbn [List.length].
    destruct (Modbus.device l (List.length (Modbus.requests l) + 1) _); cbn;
      do 2 eexists; (split; [reflexivity|]); cbn;
      rewrite <- app_assoc; repeat split.
  - do 2 eexists. split; [reflexivity|]. cbn. repeat split.
Qed.

Lemma setup_sensor_config (s : t) (l : Modbus.Line) :
  same_config s (fst (snd (setup_sensor (s, l)))).
Proof.
  run_sensor. repeat (destruct (Modbus.device l _ _); cbn); repeat split.
Qed.

Lemma read_temperature_config (n : Z) (s : t) (l : Modbus.Line) :
  same_config s (fst (snd (read_temperature n (s, l)))).
Proof.
  run_sensor. destruct (is_connected s), (instrument s); cbn;
    repeat (destruct (Modbus.device l _ _); cbn); repeat split.
Qed.

Lemma same_config_trans (a b c : t) :
  same_config a b -> same_config b c -> same_config a c.
Proof.
  unfold same_config. intros (H1 & H2 & H3 & H4) (K1 & K2 & K3 & K4).
  repeat split; congruence.
Qed.

(** X2. No method of the sensor changes its configuration: port, slave
    address, baud rate and timeout are those given at construction, after
    [setup_sensor], [read_temperature], [read_all_temperatures] and
    [disconnect] alike. *)
Theorem sensor_config_is_kept (n : Z) (s : t) (l : Modbus.Line) :
  same_config s (fst (snd (setup_sensor (s, l)))) /\
  same_config s (fst (snd (read_temperature n (s, l)))) /\
  same_config s (fst (snd (read_all_temperatures (s, l)))) /\
  same_config s (fst (snd (disconnect (s, l)))).
Proof.
  split; [apply setup_sensor_config|].
  split; [apply read_temperature_config|]. split.
  - destruct (read_temperature_returns 1 s l) as (c1 & s1 & l1 & E1 & _).
    pose proof (read_temperature_config 1 s l) as H1. rewrite E1 in H1.
    destruct (read_temperature_returns 2 s1 l1) as (c2 & s2 & l2 & E2 & _).
    pose proof (read_temperature_config 2 s1 l1) as H2. rewrite E2 in H2.
    unfold read_all_temperatures, bind. rewrite E1, E2. cbn in *.
    eapply same_config_trans; eassumption.
  - run_sensor. destruct (instrument s); cbn;
      [destruct (Modbus.device l _ _); cbn|]; repeat split.
Qed.

(** X3. On a connected sensor a register read that is answered gives the
    value: [read_temperature] asks for register [n - 1] and nothing else,
    clears [last_error] and leaves the sensor connected. *)
Theorem read_temperature_value (n : Z) (s : t) (l : Modbus.Line) (v : Q) :
  is_connected s = true ->
  instrument s = true ->
  nth_reply l 0 (register_read n) = Modbus.Value v ->
  read_temperature n (s, l)
  = (Returns (Some v), (set_last_error None s, logged [register_read n] l)).
Proof.
  unfold nth_reply, register_read, logged. rewrite Nat.add_0_r.
  intros Hc Hi Hv. run_sensor. rewrite Hc, Hi. cbn. rewrite Hv. reflexivity.
Qed.

Lemma read_temperature_value_witness :
  read_temperature 2 (sensor_up, healthy_line)
  = (Returns (Some (234 # 10)),
     (set_last_error None sensor_up, logged [register_read 2] healthy_line)).
Proof.
  apply (read_temperature_value 2 sensor_up healthy_line); reflexivity.
Defined.

(** X4. On a sensor that is down, [read_temperature] first connects again.
    If the port does not open, or if the probe of register 0 fails, it
    returns [None] with the message in [last_error] and the channel is not
    read: the line sees one request in the first case and two in the
    second. *)
Theorem read_temperature_reconnect_fails (n : Z) (s : t) (l : Modbus.Line)
    (msg : string) :
  is_connected s && instrument s = false ->
  (nth_reply l 0 (connect_request s) = Modbus.Failure msg ->
   read_temperature n (s, l)
   = (Returns None,
      (set_last_error (Some msg) (set_is_connected false s),
       logged [connect_request s] l))) /\
  (is_value (nth_reply l 0 (connect_request s)) = true ->
   nth_reply l 1 probe_request = Modbus.Failure msg ->
   read_temperature n (s, l)
   = (Returns None,
      (set_last_error (Some msg)
         (set_is_connected false (set_instrument true s)),
       logged [connect_request s; probe_request] l))).
Proof.
  unfold nth_reply, connect_request, probe_request, logged.
  rewrite Nat.add_0_r. intros Hd.
  assert (Hneed : negb (is_connected s) || negb (instrument s) = true)
    by (destruct (is_connected s), (instrument s); cbn in *; congruence).
  split.
  - intros H0. run_sensor. rewrite Hneed. cbn. rewrite H0. reflexivity.
  - intros H0 H1. run_sensor. rewrite Hneed. cbn.
    destruct (Modbus.device l (List.length (Modbus.requests l)) _);
      [|discriminate H0]. cbn.
    rewrite length_app. cbn [List.length]. rewrite H1. cbn.
    rewrite <- app_assoc. reflexivity.
Qed.

Lemma read_temperature_reconnect_fails_witness :
  read_temperature 1 (__init__ "COM4" 1 9600 1, dead_line)
  = (Returns None,
     (set_last_error (Some "No communication with the instrument")
        (set_is_connected false (__init__ "COM4" 1 9600 1)),
      logged [connect_request (__init__ "COM4" 1 9600 1)] dead_line)).
Proof.
  apply (read_temperature_reconnect_fails 1 (__init__ "COM4" 1 9600 1)
           dead_line "No communication with the instrument");
    reflexivity.
Defined.

(** X5. On a sensor that is down, a reconnection that succeeds is followed by
    the read of the channel: three requests go out, the value of the third
    is returned, and the sensor is connected again, with no error. *)
Theorem read_temperature_reconnects (n : Z) (s : t) (l : Modbus.Line) (v : Q) :
  is_connected s && instrument s = false ->
  is_value (nth_reply l 0 (connect_request s)) = true ->
  is_value (nth_reply l 1 probe_request) = true ->
  nth_reply l 2 (register_read n) = Modbus.Value v ->
  read_temperature n (s, l)
  = (Returns (Some v),
     (set_last_error None (set_is_connected true (set_instrument true s)),
      logged [connect_request s; probe_request; register_read n] l)).
Proof.
  unfold nth_reply, connect_request, probe_request, register_read, logged.
  rewrite Nat.add_0_r. intros Hd H0 H1 H2.
  assert (Hneed : negb (is_connected s) || negb (instrument s) = true)
    by (destruct (is_connected s), (instrument s); cbn in *; congruence).
  run_sensor. rewrite Hneed. cbn.
  destruct (Modbus.device l (List.length (Modbus.requests l)) _);
    [|discriminate H0]. cbn.
  rewrite length_app. cbn [List.length].
  destruct (Modbus.device l (List.length (Modbus.requests l) + 1) _);
    [|discriminate H1]. cbn.
  rewrite !length_app. cbn [List.length].
  replace (List.length (Modbus.requests l) + 1 + 1)%nat
    with (List.length (Modbus.requests l) + 2)%nat by lia.
  rewrite H2. cbn. rewrite <- !app_assoc. reflexivity.
Qed.

Lemma read_temperature_reconnects_witness :
  read_temperature 2 (__init__ "COM4" 1 9600 1, healthy_line)
  = (Returns (Some (234 # 10)),
     (set_last_error None
        (set_is_connected true (set_instrument true (__init__ "COM4" 1 9600 1))),
      logged [connect_request (__init__ "COM4" 1 9600 1); probe_request;
              register_read 2] healthy_line)).
Proof.
  apply (read_temperature_reconnects 2 (__init__ "COM4" 1 9600 1)
           healthy_line); reflexivity.
Defined.

(** X6. [read_all_temperatures] never raises, and what it leaves behind
    follows channel 2, the channel read last: the sensor is connected after
    the call exactly when channel 2 has a value, and [last_error] holds a
    message exactly when channel 2 has none, whatever happened to
    channel 1. *)
Theorem read_all_temperatures_follows_channel2 (s : t) (l : Modbus.Line) :
  exists (temps : Temperatures) (s' : t) (l' : Modbus.Line),
    read_all_temperatures (s, l) = (Returns temps, (s', l')) /\
    is_connected s' = TemperatureStation.is_some (channel2 temps) /\
    (channel2 temps = None <-> exists msg, last_error s' = Some msg).
Proof.
  destruct (read_all_temperatures_returns s l)
    as (c1 & c2 & s' & l' & E & H).
  exists {| channel1 := c1; channel2 := c2 |}, s', l'.
  split; [exact E|]. cbn [channel2].
  destruct c2 as [v|]; cbn in H |- *.
  - destruct H as (Hc & _ & He). split; [exact Hc|]. split.
    + discriminate.
    + intros (msg & Hm). congruence.
  - destruct H as (Hc & msg & He). split; [exact Hc|]. split.
    + intros _. exists msg. exact He.
    + reflexivity.
Qed.

(** X7. On a connected sensor whose two reads are answered,
    [read_all_temperatures] asks for register 0 and then for register 1,
    nothing else, and returns the two values in that order. *)
Theorem read_all_temperatures_values (s : t) (l : Modbus.Line) (v1 v2 : Q) :
  is_connected s = true ->
  instrument s = true ->
  nth_reply l 0 (register_read 1) = Modbus.Value v1 ->
  nth_reply l 1 (register_read 2) = Modbus.Value v2 ->
  read_all_temperatures (s, l)
  = (Returns {| channel1 := Some v1; channel2 := Some v2 |},
     (set_last_error None s,
      logged [Modbus.read_register 0 1 3 true;
              Modbus.read_register 1 1 3 true] l)).
Proof.
  unfold nth_reply, register_read, logged. rewrite Nat.add_0_r.
  intros Hc Hi H1 H2. run_sensor. rewrite Hc, Hi. cbn.
  change (1 - 1)%Z with 0%Z in H1. rewrite H1. cbn. rewrite Hc, Hi. cbn.
  rewrite length_app. cbn [List.length].
  change (2 - 1)%Z with 1%Z in H2. rewrite H2. cbn.
  rewrite <- app_assoc. reflexivity.
Qed.

Lemma read_all_temperatures_values_witness :
  read_all_temperatures (sensor_up, healthy_line)
  = (Returns {| channel1 := Some (234 # 10); channel2 := Some (234 # 10) |},
     (set_last_error None sensor_up,
      logged [Modbus.read_register 0 1 3 true;
              Modbus.read_register 1 1 3 true] healthy_line)).
Proof.
  apply (read_all_temperatures_values sensor_up healthy_line); reflexivity.
Defined.

Lemma disconnect_eq (s : t) (l : Modbus.Line) :
  disconnect (s, l)
  = (Returns tt,
     (set_instrument false (set_is_connected false s),
      if instrument s then logged [Modbus.serial_close] l else l)).
Proof.
  unfold logged. run_sensor. destruct (instrument s); cbn;
    [destruct (Modbus.device l _ _); cbn|]; reflexivity.
Qed.

Lemma read_all_temperatures_values_eq (s : t) (l : Modbus.Line) (v1 v2 : Q) :
  is_connected s = true ->
  instrument s = true ->
  nth_reply l 0 (register_read 1) = Modbus.Value v1 ->
  nth_reply l 1 (register_read 2) = Modbus.Value v2 ->
  read_all_temperatures (s, l)
  = (Returns {| channel1 := Some v1; channel2 := Some v2 |},
     (set_last_error None s,
      logged [Modbus.read_register 0 1 3 true;
              Modbus.read_register 1 1 3 true] l)).
Proof.
  unfold nth_reply, register_read, logged. rewrite Nat.add_0_r.
  intros Hc Hi H1 H2. run_sensor. rewrite Hc, Hi. cbn.
  change (1 - 1)%Z with 0%Z in H1. rewrite H1. cbn. rewrite Hc, Hi. cbn.
  rewrite length_app. cbn [List.length].
  change (2 - 1)%Z with 1%Z in H2. rewrite H2. cbn.
  rewrite <- app_assoc. reflexivity.
Qed.

(** X8. [disconnect] never raises, also when closing the port fails. It asks
    for the port to be closed only if there is an instrument, and leaves the
    sensor disconnected and without instrument. A second [disconnect] asks
    for nothing and changes nothing. *)
Theorem disconnect_is_quiet_and_idempotent (s : t) (l : Modbus.Line) :
  disconnect (s, l)
  = (Returns tt,
     (set_instrument false (set_is_connected false s),
      if instrument s then logged [Modbus.serial_close] l else l)) /\
  disconnect (snd (disconnect (s, l))) = (Returns tt, snd (disconnect (s, l))).
Proof.
  split; [apply disconnect_eq|].
  rewrite (disconnect_eq s l). cbn [snd]. rewrite disconnect_eq.
  destruct (instrument s); reflexivity.
Qed.

End SensorMore.

(** * More on the station: construction, stopping, polling, invariants *)

Module StationMore.
Import TemperatureStation.
Import StationFacts.

#[local] Arguments RealTemperatureSensor.read_all_temperatures : simpl never.
#[local] Arguments RealTemperatureSensor.disconnect : simpl never.
#[local] Arguments RealTemperatureSensor.setup_sensor : simpl never.

(** X9. The constructor never raises and makes a stopped station: no thread,
    an empty history, no current temperatures, and the id, name, threshold
    and mode it was given. Without hardware there is no sensor, no error and
    the serial line is not touched. With hardware the sensor is there, and
    [sensor_connection_error] is [None] when the first connection succeeded
    and the message of the sensor when it failed. *)
Theorem init_makes_stopped_station (station_id : Z) (name : string)
    (threshold_difference : Q) (use_real_sensor : bool) (com_port : string)
    (w : World) :
  exists (s : t) (w' : World),
    __init__ station_id name threshold_difference use_real_sensor com_port w
    = (Returns s, w') /\
    is_running s = false /\ thread s = None /\
    temperature_history s = [] /\
    current_temperatures s = {| channel1 := None; channel2 := None |} /\
    TemperatureStation.station_id s = station_id /\
    TemperatureStation.name s = name /\
    TemperatureStation.threshold_difference s = threshold_difference /\
    TemperatureStation.use_real_sensor s = use_real_sensor /\
    live_threads w' = live_threads w /\
    match real_sensor s with
    | None =>
        use_real_sensor = false /\ sensor_connection_error s = None /\ w' = w
    | Some sensor =>
        use_real_sensor = true /\
        RealTemperatureSensor.com_port sensor = com_port /\
        sensor_connection_error s
        = (if RealTemperatureSensor.is_connected sensor then None
           else RealTemperatureSensor.last_error sensor) /\
        (RealTemperatureSensor.is_connected sensor = false ->
         exists msg, sensor_connection_error s = Some msg)
    end.
Proof.
  unfold __init__. destruct use_real_sensor.
  - destruct (SensorFacts.setup_sensor_returns
                (RealTemperatureSensor.__init__ com_port 1 9600 1) (line w))
      as (ok & sensor' & l' & E & Hc & Hok & Hfail).
    pose proof (SensorMore.setup_sensor_config
                  (RealTemperatureSensor.__init__ com_port 1 9600 1) (line w))
      as (Hport & _).
    rewrite E in Hport |- *. cbn in Hport.
    do 2 eexists. split; [reflexivity|].
    destruct ok; cbn; rewrite Hc.
    + repeat split; try assumption; try discriminate.
    + destruct (Hfail eq_refl) as (msg & He).
      repeat split; try assumption; eauto.
  - do 2 eexists. split; [reflexivity|]. cbn. repeat split.
Qed.

Lemma stop_detection_eq (s : t) (w : World) :
  stop_detection (s, w)
  = (Returns tt,
     match real_sensor s with
     | Some sensor =>
         (set_real_sensor
            (Some (RealTemperatureSensor.set_instrument false
                     (RealTemperatureSensor.set_is_connected false sensor)))
            (set_is_running false s),
          set_line
            (if RealTemperatureSensor.instrument sensor
             then SensorFacts.logged [Modbus.serial_close] (line w)
             else line w) w)
     | None => (set_is_running false s, w)
     end).
Proof.
  run_station. destruct (thread s); cbn;
    (destruct (real_sensor s) as [sensor|] eqn:Hs; cbn;
     [rewrite Hs, SensorMore.disconnect_eq|]; reflexivity).
Qed.

(** X10. Stopping is idempotent: a second [stop_detection] right after the
    first changes nothing, in the station or on the serial line, because the
    sensor has no instrument left to close. *)
Theorem stop_twice_is_stop_once (s : State) :
  step Stop (step Stop s) = step Stop s.
Proof.
  destruct s as [s w]. cbn [step]. rewrite (stop_detection_eq s w).
  cbn [snd]. destruct (real_sensor s) as [sensor|] eqn:Hs.
  - rewrite stop_detection_eq. cbn. reflexivity.
  - rewrite stop_detection_eq. cbn. rewrite Hs. reflexivity.
Qed.

(** A running station with a connected sensor on a healthy line. *)
Definition healthy_station : State :=
  (mk 1 "Temperature Station" 10 true true (Some 0%nat) no_temperatures []
      (Some SensorFacts.sensor_up) None,
   {| line := SensorMore.healthy_line; live_threads := [0%nat];
      threads_created := 1 |}).

(** X11. When both hardware reads of an iteration are answered, the
    iteration stores the hardware values, rounded, as current temperatures
    and as a new reading, clears the connection error, and does not use the
    simulated generator: the result does not depend on the random draws. *)
Theorem hardware_iteration_stores_hardware_values
    (inp : Inputs) (s : t) (w : World) (sensor : RealTemperatureSensor.t)
    (v1 v2 : Q) :
  use_real_sensor s = true ->
  real_sensor s = Some sensor ->
  RealTemperatureSensor.is_connected sensor = true ->
  RealTemperatureSensor.instrument sensor = true ->
  SensorFacts.nth_reply (line w) 0 (SensorFacts.register_read 1)
  = Modbus.Value v1 ->
  SensorFacts.nth_reply (line w) 1 (SensorFacts.register_read 2)
  = Modbus.Value v2 ->
  _detection_loop_body inp (s, w)
  = (Returns tt,
     (stored inp v1 v2
        (set_sensor_connection_error None
           (set_real_sensor
              (Some (RealTemperatureSensor.set_last_error None sensor)) s)),
      set_line
        (SensorFacts.logged [Modbus.read_register 0 1 3 true;
                             Modbus.read_register 1 1 3 true] (line w)) w)).
Proof.
  intros Hu Hs Hc Hi H1 H2.
  rewrite (body_hardware inp s w sensor _ _ _ Hu Hs
             (SensorMore.read_all_temperatures_values_eq
                sensor (line w) v1 v2 Hc Hi H1 H2)).
  cbn. rewrite Hc. reflexivity.
Qed.

Lemma hardware_iteration_stores_hardware_values_witness :
  temperature_history (fst (snd (_detection_loop_body demo_inputs healthy_station)))
  = [reading_of demo_inputs (234 # 10) (234 # 10)].
Proof.
  pose proof (hardware_iteration_stores_hardware_values demo_inputs
                (fst healthy_station) (snd healthy_station)
                SensorFacts.sensor_up (234 # 10) (234 # 10)
                eq_refl eq_refl eq_refl eq_refl eq_refl eq_refl) as H.
  change (fst healthy_station, snd healthy_station) with healthy_station in H.
  rewrite H. reflexivity.
Defined.

(** The shape of the state after the body of the loop. *)
Lemma body_shape (inp : Inputs) (s : t) (w : World) :
  exists c1 c2 e r w',
    _detection_loop_body inp (s, w)
    = (Returns tt,
       (stored inp c1 c2 (set_sensor_connection_error e (set_real_sensor r s)),
        w')) /\
    is_some r = is_some (real_sensor s) /\
    live_threads w' = live_threads w /\
    threads_created w' = threads_created w /\
    (hardware_backed s = false ->
     r = real_sensor s /\ e = sensor_connection_error s /\ w' = w /\
     c1 = simulated1 inp /\ c2 = simulated2 inp).
Proof.
  destruct (hardware_backed s) eqn:H.
  - pose proof H as H'. unfold hardware_backed in H'.
    apply andb_prop in H' as [Hu Hs].
    destruct (real_sensor s) as [sensor|] eqn:Hr; [|discriminate].
    destruct (SensorFacts.read_all_temperatures_returns sensor (line w))
      as (c1 & c2 & sensor' & l' & E & _).
    rewrite (body_hardware inp s w sensor sensor' _ l' Hu Hr E).
    do 5 eexists. split; [reflexivity|].
    do 3 (split; [reflexivity|]). intros Hf. discriminate Hf.
  - rewrite (body_simulated inp s w H).
    exists (simulated1 inp), (simulated2 inp), (sensor_connection_error s),
      (real_sensor s), w.
    split; [destruct s; reflexivity|]. repeat split.
Qed.

(** A turn of a polling thread, case by case. *)
Lemma poll_eq (tid : nat) (inp : Inputs) (s : t) (w : World) :
  step (Poll tid inp) (s, w)
  = if existsb (Nat.eqb tid) (live_threads w)
    then if is_running s
         then snd (_detection_loop_body inp (s, w))
         else (s, exit_thread tid w)
    else (s, w).
Proof.
  cbn [step]. unfold _detection_loop. cbn [fst snd].
  destruct (existsb _ _); [|reflexivity].
  destruct (is_running s); [|reflexivity].
  destruct (body_returns inp s w) as (c1 & c2 & s0 & w' & E & _).
  rewrite E. reflexivity.
Qed.

(** X12. A turn of a polling thread never changes what the station is: its
    id, name, threshold and mode, whether it runs, its thread handle and
    whether it has a sensor stay as they are, and no thread is made. A
    station without hardware also leaves the serial line and its connection
    error alone. *)
Theorem poll_keeps_the_station (tid : nat) (inp : Inputs) (s : State) :
  let s' := step (Poll tid inp) s in
  station_id (fst s') = station_id (fst s) /\
  name (fst s') = name (fst s) /\
  threshold_difference (fst s') = threshold_difference (fst s) /\
  use_real_sensor (fst s') = use_real_sensor (fst s) /\
  is_running (fst s') = is_running (fst s) /\
  thread (fst s') = thread (fst s) /\
  is_some (real_sensor (fst s')) = is_some (real_sensor (fst s)) /\
  threads_created (snd s') = threads_created (snd s) /\
  (hardware_backed (fst s) = false ->
   line (snd s') = line (snd s) /\
   real_sensor (fst s') = real_sensor (fst s) /\
   sensor_connection_error (fst s') = sensor_connection_error (fst s)).
Proof.
  destruct s as [s w]. cbv zeta. rewrite poll_eq. cbn [fst snd].
  destruct (existsb _ _); [destruct (is_running s) eqn:Hrun|];
    try (cbn; rewrite ?Hrun; repeat split; fail).
  destruct (body_shape inp s w)
    as (c1 & c2 & e & r & w' & E' & Hr & _ & Hc & Hsim).
  rewrite E'. cbn. rewrite Hrun.
  do 6 (split; [reflexivity|]). split; [exact Hr|]. split; [exact Hc|].
  intros H. destruct (Hsim H) as (-> & -> & -> & _). repeat split.
Qed.

Lemma poll_keeps_the_station_witness :
  line (snd (step (Poll 0 demo_inputs) running_station))
  = line (snd running_station) /\
  is_running (fst (step (Poll 0 demo_inputs) running_station)) = true.
Proof.
  destruct (poll_keeps_the_station 0 demo_inputs running_station)
    as (_ & _ & _ & _ & Hr & _ & _ & _ & Hsim).
  split; [apply Hsim; reflexivity|]. rewrite Hr. reflexivity.
Defined.

Lemma init_makes_stopped_station_witness :
  exists (s : t) (w' : World),
    __init__ 1 "Temperature Station" 10 true "COM4" quiet_world = (Returns s, w') /\
    is_running s = false /\
    sensor_connection_error s = Some "No communication with the instrument".
Proof.
  destruct (init_makes_stopped_station 1 "Temperature Station" 10 true "COM4"
              quiet_world) as (s & w' & E & Hr & _).
  exists s, w'. split; [exact E|]. split; [exact Hr|].
  revert E. vm_compute. intros E. injection E as <- _. reflexivity.
Defined.

(** *** Invariants of the stored data *)

Definition temperatures_of (r : Reading) : Temperatures :=
  {| channel1 := Some (channel1_temperature r);
     channel2 := Some (channel2_temperature r) |}.

(** The current temperatures are those of the newest reading, and absent
    when there is no reading. *)
Definition current_is_newest (s : t) : Prop :=
  match rev (temperature_history s) with
  | [] => current_temperatures s = no_temperatures
  | newest :: _ => current_temperatures s = temperatures_of newest
  end.

Lemma append_reading_ends (r : Reading) (h : list Reading) :
  exists kept, append_reading r h = (kept ++ [r])%list /\ incl kept h.
Proof.
  unfold append_reading. destruct (100 <? _)%nat eqn:H.
  - destruct h as [|oldest rest].
    + cbn in H. discriminate.
    + exists rest. split; [reflexivity|]. apply incl_tl, incl_refl.
  - exists h. split; [reflexivity|apply incl_refl].
Qed.

Lemma stored_current_is_newest (inp : Inputs) (c1 c2 : Q) (s : t) :
  current_is_newest (stored inp c1 c2 s).
Proof.
  unfold current_is_newest, stored. cbn.
  destruct (append_reading_ends (reading_of inp c1 c2) (temperature_history s))
    as (kept & -> & _).
  rewrite rev_app_distr. reflexivity.
Qed.

Lemma step_current_is_newest (c : call) (s : State) :
  current_is_newest (fst s) -> current_is_newest (fst (step c s)).
Proof.
  destruct s as [s w]. cbn [fst]. intros H. destruct c as [| |tid inp].
  - cbn [step]. rewrite start_detection_spec.
    destruct (is_running s); [exact H|reflexivity].
  - cbn [step]. rewrite stop_detection_eq.
    destruct (real_sensor s); exact H.
  - rewrite poll_eq.
    destruct (existsb _ _); [destruct (is_running s)|]; try exact H.
    destruct (body_shape inp s w) as (c1 & c2 & e & r & w' & E & _).
    rewrite E. apply stored_current_is_newest.
Qed.

(** X13. The current temperatures always go with the history: after any
    calls and polling turns they are the two values of the newest reading,
    and they are absent exactly as long as the history is empty, provided it
    was so at the beginning, as it is for a new station. *)
Theorem current_temperatures_are_newest_reading (cs : list call) (s : State) :
  current_is_newest (fst s) -> current_is_newest (fst (run cs s)).
Proof.
  revert s. induction cs as [|c cs IH]; intros s H; [exact H|].
  cbn. apply IH. apply step_current_is_newest. exact H.
Qed.

Lemma current_temperatures_are_newest_reading_witness :
  current_is_newest
    (fst (run [Start; Poll 0 demo_inputs; Stop; Start; Poll 1 demo_inputs]
            (demo_station, quiet_world))).
Proof.
  apply (current_temperatures_are_newest_reading
           [Start; Poll 0 demo_inputs; Stop; Start; Poll 1 demo_inputs]
           (demo_station, quiet_world)).
  reflexivity.
Defined.

(** [round(x, 2)] of a number with one decimal is that number. *)
Lemma round2_tenths (k : Z) : round2 (k # 10) == k # 10.
Proof.
  unfold round2, round_half_even, Qmult. cbn [Qnum Qden].
  change (Z.pos (10 * 1)) with 10%Z.
  replace (k * 100)%Z with (k * 10 * 10)%Z by ring.
  rewrite Z.div_mul, Z.mod_mul by discriminate. cbn.
  unfold Qeq. cbn [Qnum Qden]. ring.
Qed.

(** X14. Hardware values are stored as they were read: the registers are
    read with one decimal, and when both reads of an iteration are answered
    the reading that is stored, and the current temperatures with it, hold
    exactly these two values; rounding to two decimals does not alter a
    value in tenths. *)
Theorem hardware_tenths_are_stored_unchanged
    (inp : Inputs) (s : t) (w : World) (sensor : RealTemperatureSensor.t)
    (k1 k2 : Z) :
  use_real_sensor s = true ->
  real_sensor s = Some sensor ->
  RealTemperatureSensor.is_connected sensor = true ->
  RealTemperatureSensor.instrument sensor = true ->
  SensorFacts.nth_reply (line w) 0 (SensorFacts.register_read 1)
  = Modbus.Value (k1 # 10) ->
  SensorFacts.nth_reply (line w) 1 (SensorFacts.register_read 2)
  = Modbus.Value (k2 # 10) ->
  exists r : Reading,
    temperature_history (fst (snd (_detection_loop_body inp (s, w))))
    = append_reading r (temperature_history s) /\
    current_temperatures (fst (snd (_detection_loop_body inp (s, w))))
    = temperatures_of r /\
    timestamp r = now inp /\
    channel1_temperature r == k1 # 10 /\
    channel2_temperature r == k2 # 10.
Proof.
  intros Hu Hs Hc Hi H1 H2.
  rewrite (body_hardware inp s w sensor _ _ _ Hu Hs
             (SensorMore.read_all_temperatures_values_eq
                sensor (line w) (k1 # 10) (k2 # 10) Hc Hi H1 H2)).
  exists (reading_of inp (k1 # 10) (k2 # 10)).
  cbn [fst snd StationFacts.kept channel1 channel2].
  split; [reflexivity|]. split; [reflexivity|]. split; [reflexivity|].
  split; apply round2_tenths.
Qed.

Lemma hardware_tenths_are_stored_unchanged_witness :
  exists r : Reading,
    temperature_history (fst (snd (_detection_loop_body demo_inputs healthy_station)))
    = append_reading r [] /\
    channel1_temperature r == 234 # 10 /\
    channel2_temperature r == 234 # 10.
Proof.
  destruct (hardware_tenths_are_stored_unchanged demo_inputs
              (fst healthy_station) (snd healthy_station)
              SensorFacts.sensor_up 234 234
              eq_refl eq_refl eq_refl eq_refl eq_refl eq_refl)
    as (r & Hh & _ & _ & H1 & H2).
  exists r. split; [exact Hh|]. split; assumption.
Defined.

(** *** The history as a window on what was measured *)

Definition simulated_reading (inp : Inputs) : Reading :=
  reading_of inp (simulated1 inp) (simulated2 inp).

(** The last 100 entries of a list, all of it when it has fewer. *)
Definition last_hundred (l : list Reading) : list Reading :=
  skipn (List.length l - 100) l.

Lemma last_hundred_append_reading (r : Reading) (h rs : list Reading) :
  (List.length h <= 100)%nat ->
  last_hundred (append_reading r h ++ rs) = last_hundred (h ++ r :: rs).
Proof.
  intros H. unfold last_hundred.
  destruct (Nat.lt_ge_cases (List.length h) 100) as [Hlt|Hge].
  - rewrite append_reading_room by exact Hlt.
    rewrite <- app_assoc. reflexivity.
  - destruct h as [|oldest rest]; [cbn in Hge; lia|].
    rewrite append_reading_full by exact Hge.
    rewrite <- app_assoc. cbn [app List.length] in *.
    rewrite !length_app. cbn [List.length].
    replace (S (List.length rest + S (List.length rs)) - 100)%nat
      with (S (List.length rest + S (List.length rs) - 100))%nat by lia.
    reflexivity.
Qed.

Lemma poll_simulated (tid : nat) (inp : Inputs) (s : t) (w : World) :
  hardware_backed s = false ->
  is_running s = true ->
  existsb (Nat.eqb tid) (live_threads w) = true ->
  step (Poll tid inp) (s, w)
  = (stored inp (simulated1 inp) (simulated2 inp) s, w).
Proof.
  intros Hh Hr Hl. rewrite poll_eq, Hl, Hr, (body_simulated inp s w Hh).
  reflexivity.
Qed.

(** X15. The history is a window of 100 on the readings: when a thread of a
    running station without hardware makes any number of iterations, the
    history afterwards is the last 100 entries of the old history followed
    by the new readings, in the order they were made. *)
Theorem history_is_last_hundred (tid : nat) (inps : list Inputs)
    (s : t) (w : World) :
  hardware_backed s = false ->
  is_running s = true ->
  existsb (Nat.eqb tid) (live_threads w) = true ->
  (List.length (temperature_history s) <= 100)%nat ->
  temperature_history (fst (run (map (Poll tid) inps) (s, w)))
  = last_hundred (temperature_history s ++ map simulated_reading inps).
Proof.
  revert s. induction inps as [|inp inps IH]; intros s Hh Hr Hl Hlen.
  - cbn [map run fold_left fst]. rewrite app_nil_r. unfold last_hundred.
    replace (List.length (temperature_history s) - 100)%nat with 0%nat by lia.
    reflexivity.
  - cbn [map]. unfold run. cbn [fold_left]. fold (run (map (Poll tid) inps)).
    rewrite (poll_simulated tid inp s w Hh Hr Hl).
    rewrite IH.
    + cbn [map]. apply last_hundred_append_reading. exact Hlen.
    + exact Hh.
    + exact Hr.
    + exact Hl.
    + apply append_reading_length. exact Hlen.
Qed.

Lemma history_is_last_hundred_witness :
  temperature_history
    (fst (run (map (Poll 0) [demo_inputs; demo_inputs]) running_station))
  = last_hundred
      (temperature_history (fst running_station)
       ++ map simulated_reading [demo_inputs; demo_inputs]).
Proof.
  apply (history_is_last_hundred 0 [demo_inputs; demo_inputs]
           (fst running_station) (snd running_station));
    try reflexivity.
  cbn. lia.
Defined.

(** *** A station without a sensor, and the sensor of a stopped station *)

Lemma get_status_sensor (s : t) :
  sensor_connected (get_status s)
  = (if use_real_sensor s
     then Some match real_sensor s with
               | Some sensor => RealTemperatureSensor.is_connected sensor
               | None => false
               end
     else None) /\
  sensor_error (get_status s) = sensor_connection_error s.
Proof.
  unfold get_status, get_current_temperatures.
  destruct (current_temperatures s) as [[c1|] [c2|]]; cbn;
    destruct (use_real_sensor s), (real_sensor s); split; reflexivity.
Qed.

Lemma step_without_sensor (c : call) (s : State) :
  real_sensor (fst s) = None ->
  real_sensor (fst (step c s)) = None /\
  line (snd (step c s)) = line (snd s) /\
  sensor_connection_error (fst (step c s)) = sensor_connection_error (fst s) /\
  use_real_sensor (fst (step c s)) = use_real_sensor (fst s).
Proof.
  destruct s as [s w]. cbn [fst snd]. intros Hn. destruct c as [| |tid inp].
  - cbn [step]. rewrite start_detection_spec.
    destruct (is_running s); cbn; repeat split; assumption.
  - cbn [step]. rewrite stop_detection_eq, Hn. cbn. repeat split; assumption.
  - rewrite poll_eq.
    destruct (existsb _ _); [destruct (is_running s)|];
      try (cbn; repeat split; assumption).
    assert (Hh : hardware_backed s = false)
      by (unfold hardware_backed; rewrite Hn; apply andb_false_r).
    rewrite (body_simulated inp s w Hh). cbn. repeat split; assumption.
Qed.

(** X24. A station without a sensor, as the constructor makes it when no
    hardware is asked for, never touches the serial line: whatever is called
    and however long it polls, it gets no sensor, the line sees no request,
    the connection error does not change, and the status never claims a
    connection. *)
Theorem station_without_sensor_never_uses_line (cs : list call) (s : State) :
  real_sensor (fst s) = None ->
  real_sensor (fst (run cs s)) = None /\
  line (snd (run cs s)) = line (snd s) /\
  sensor_connection_error (fst (run cs s)) = sensor_connection_error (fst s) /\
  sensor_connected (get_status (fst (run cs s)))
  = (if use_real_sensor (fst s) then Some false else None).
Proof.
  revert s. induction cs as [|c cs IH]; intros s Hn.
  - unfold run. cbn [fold_left]. do 3 (split; [reflexivity || assumption|]).
    rewrite (proj1 (get_status_sensor (fst s))), Hn.
    destruct (use_real_sensor (fst s)); reflexivity.
  - destruct (step_without_sensor c s Hn) as (Hn' & Hl & He & Hu).
    change (run (c :: cs) s) with (run cs (step c s)).
    destruct (IH (step c s) Hn') as (K1 & K2 & K3 & K4).
    rewrite K1, K2, K3, K4, Hl, He, Hu. repeat split.
Qed.

Lemma station_without_sensor_never_uses_line_witness :
  line (snd (run [Start; Poll 0 demo_inputs; Stop; Start]
               (demo_station, quiet_world)))
  = SensorFacts.dead_line.
Proof.
  apply (station_without_sensor_never_uses_line
           [Start; Poll 0 demo_inputs; Stop; Start]
           (demo_station, quiet_world)).
  reflexivity.
Defined.

(** X25. After [stop_detection] the status of a station with a sensor says
    that the sensor is not connected, while [sensor_error] keeps the value
    of the last iteration: stopping disconnects the sensor and does not
    write the error of the station. *)
Theorem stopped_station_reports_disconnected (s : t) (w : World)
    (sensor : RealTemperatureSensor.t) :
  use_real_sensor s = true ->
  real_sensor s = Some sensor ->
  let s' := fst (step Stop (s, w)) in
  sensor_connected (get_status s') = Some false /\
  sensor_error (get_status s') = sensor_connection_error s /\
  real_sensor s'
  = Some (RealTemperatureSensor.set_instrument false
            (RealTemperatureSensor.set_is_connected false sensor)).
Proof.
  intros Hu Hs. cbn [step]. rewrite stop_detection_eq, Hs. cbn [fst snd].
  rewrite (proj1 (get_status_sensor _)), (proj2 (get_status_sensor _)).
  cbn. rewrite Hu. repeat split.
Qed.

Lemma stopped_station_reports_disconnected_witness :
  sensor_connected (get_status (fst (step Stop healthy_station))) = Some false.
Proof.
  apply (stopped_station_reports_disconnected (fst healthy_station)
           (snd healthy_station) SensorFacts.sensor_up);
    reflexivity.
Defined.

(** *** Threads of a stopped station *)

Lemma filter_absent (tid : nat) (l : list nat) :
  existsb (Nat.eqb tid) l = false ->
  filter (fun x => negb (Nat.eqb x tid)) l = l.
Proof.
  induction l as [|x l IH]; cbn; [reflexivity|].
  intros H. apply orb_false_elim in H as [Hx Hl].
  rewrite Nat.eqb_sym, Hx. cbn. f_equal. apply IH, Hl.
Qed.

Lemma poll_stopped (tid : nat) (inp : Inputs) (s : t) (w : World) :
  is_running s = false ->
  step (Poll tid inp) (s, w)
  = (s, {| line := line w;
           live_threads := filter (fun x => negb (Nat.eqb x tid)) (live_threads w);
           threads_created := threads_created w |}).
Proof.
  intros Hr. rewrite poll_eq, Hr.
  destruct (existsb _ _) eqn:Hl; [reflexivity|].
  rewrite (filter_absent tid _ Hl). destruct w; reflexivity.
Qed.

Lemma polls_stopped (tids : list nat) (inp : Inputs) (s : t) (w : World) :
  is_running s = false ->
  run (map (fun tid => Poll tid inp) tids) (s, w)
  = (s, {| line := line w;
           live_threads :=
             filter (fun x => negb (existsb (Nat.eqb x) tids)) (live_threads w);
           threads_created := threads_created w |}).
Proof.
  intros Hr. revert w. induction tids as [|tid tids IH]; intros w.
  - cbn. f_equal. destruct w as [l live n]. cbn. f_equal.
    symmetry. induction live as [|x live IHl]; cbn; [reflexivity|].
    f_equal. exact IHl.
  - cbn [map]. unfold run. cbn [fold_left].
    fold (run (map (fun tid => Poll tid inp) tids)).
    rewrite (poll_stopped tid inp s w Hr), IH. cbn. f_equal. f_equal.
    induction (live_threads w) as [|x live IHl]; cbn; [reflexivity|].
    destruct (Nat.eqb x tid); cbn; [exact IHl|].
    destruct (existsb (Nat.eqb x) tids); cbn; [exact IHl|].
    f_equal. exact IHl.
Qed.

(** X16. A thread that takes its turn on a stopped station ends and touches
    nothing: the station and the serial line stay as they are and only the
    threads that had a turn leave. Once every live thread has had a turn, no
    polling thread is left. *)
Theorem stopped_station_sheds_its_threads (tids : list nat) (inp : Inputs)
    (s : t) (w : World) :
  is_running s = false ->
  let s' := run (map (fun tid => Poll tid inp) tids) (s, w) in
  fst s' = s /\
  line (snd s') = line w /\
  live_threads (snd s')
  = filter (fun x => negb (existsb (Nat.eqb x) tids)) (live_threads w) /\
  (incl (live_threads w) tids -> live_threads (snd s') = []).
Proof.
  intros Hr. cbv zeta. rewrite (polls_stopped tids inp s w Hr). cbn.
  repeat split. intros Hall.
  induction (live_threads w) as [|x live IH]; cbn; [reflexivity|].
  assert (Hx : existsb (Nat.eqb x) tids = true).
  { apply existsb_exists. exists x. split; [|apply Nat.eqb_refl].
    apply Hall. left. reflexivity. }
  rewrite Hx. cbn. apply IH. intros y Hy. apply Hall. right. exact Hy.
Qed.

(** A stopped station whose two threads have not yet seen the flag. *)
Definition lingering_threads : World :=
  {| line := SensorFacts.dead_line; live_threads := [0; 1]%nat;
     threads_created := 2 |}.

Lemma stopped_station_sheds_its_threads_witness :
  live_threads
    (snd (run (map (fun tid => Poll tid demo_inputs) [0; 1]%nat)
            (demo_station, lingering_threads)))
  = [].
Proof.
  pose proof (stopped_station_sheds_its_threads [0; 1]%nat demo_inputs
                demo_station lingering_threads eq_refl) as (_ & _ & _ & H).
  apply H. intros x Hx. exact Hx.
Defined.

End StationMore.

(** * Rounding, and what a simulated iteration stores *)

Module RoundingFacts.
Import TemperatureStation.
Import StationFacts.








End RoundingFacts.

(** * More on the export *)

Module ExportMore.
Import TemperatureStation.
Import ExportFacts.

(** X18. The export grows with the history, line by line: with one more
    reading at the end of the history, the text is the text from before
    followed by the line of that reading, so what was exported earlier is a
    prefix of what is exported later as long as nothing was evicted. *)
Theorem export_appends_one_row (s : t) (r : Reading) :
  Forall (fun x => Datetime.valid (timestamp x)) (temperature_history s) ->
  Datetime.valid (timestamp r) ->
  export_to_csv
    (set_temperature_history (temperature_history s ++ [r])%list s)
  = export_to_csv s ++ row_line s r.
Proof.
  intros Hv Hr. unfold export_to_csv. cbn [temperature_history name station_id
    set_temperature_history].
  rewrite fold_left_app. cbn [fold_left].
  rewrite (writerow_reading s r _ Hr). reflexivity.
Qed.

Lemma export_appends_one_row_witness :
  export_to_csv
    (set_temperature_history
       (temperature_history (fst StationFacts.running_station)
        ++ [StationFacts.reading_of StationFacts.demo_inputs 5 24])%list
       (fst StationFacts.running_station))
  = export_to_csv (fst StationFacts.running_station)
    ++ row_line (fst StationFacts.running_station)
         (StationFacts.reading_of StationFacts.demo_inputs 5 24).
Proof.
  apply (export_appends_one_row (fst StationFacts.running_station)
           (StationFacts.reading_of StationFacts.demo_inputs 5 24)).
  - repeat constructor; vm_compute; discriminate.
  - repeat constructor; vm_compute; discriminate.
Defined.

End ExportMore.

(** ** app_pyside_one_station.py: what the window computes from the station *)

(** The chart of [TemperatureChart.update_chart], as the data handed to the
    plotting library: the two temperature lines, one coloured segment for
    each reading, and the limits of the vertical axis. *)
Module TemperatureChart.
Import TemperatureStation.

Definition normal_color : string := "#4CAF50".
Definition abnormal_color : string := "#f44336".

Record Segment : Type := mkSegment {
  segment_time : Datetime.t;
  segment_from : Q;
  segment_to : Q;
  segment_color : string
}.

Record Plot : Type := mkPlot {
  times : list Datetime.t;
  channel1_temps : list Q;
  channel2_temps : list Q;
  segments : list Segment;
  ylim : option (Q * Q)
}.

(** [min] and [max] of a non-empty list, as Python scans it. *)
Definition py_min (first : Q) (rest : list Q) : Q :=
  fold_left (fun m x => if Qltb x m then x else m) rest first.

Definition py_max (first : Q) (rest : list Q) : Q :=
  fold_left (fun m x => if Qltb m x then x else m) rest first.

Definition line_color (temp1 temp2 threshold_difference : Q) : string :=
  let difference := double_sub temp2 temp1 in
  if Qle_bool (double threshold_difference) difference
  then normal_color else abnormal_color.

(** [None] is the chart that only says 'No data available'. *)
Definition update_chart (history : list Reading) (threshold_difference : Q)
    : option Plot :=
  match history with
  | [] => None
  | _ :: _ =>
      let times := map timestamp history in
      let channel1_temps := map channel1_temperature history in
      let channel2_temps := map channel2_temperature history in
      let segments :=
        map (fun x : Datetime.t * (Q * Q) =>
               let '(time, (temp1, temp2)) := x in
               {| segment_time := time;
                  segment_from := temp1;
                  segment_to := temp2;
                  segment_color := line_color temp1 temp2 threshold_difference |})
            (combine times (combine channel1_temps channel2_temps)) in
      let all_temperatures := (channel1_temps ++ channel2_temps)%list in
      Some {| times := times;
              channel1_temps := channel1_temps;
              channel2_temps := channel2_temps;
              segments := segments;
              ylim :=
                match all_temperatures with
                | [] => None
                | first :: rest =>
                    let min_temp := py_min first rest in
                    let max_temp := py_max first rest in
                    let padding :=
                      if negb (Qeq_bool max_temp min_temp)
                      then (max_temp - min_temp) * (1 # 10)
                      else 1 in
                    Some (min_temp - padding, max_temp + padding)
                end |}
  end.

End TemperatureChart.

(** The window: [update_display] as the values it gives to its widgets, and
    [export_csv] with the answer of the file dialog and of the file system as
    inputs. *)
Module TemperatureDetectionApp.
Import TemperatureStation.

Definition newline : string := String (ascii_of_nat 10) "".
Definition degrees : string := String (ascii_of_nat 194) (String (ascii_of_nat 176) "C").

Record Label : Type := mkLabel {
  text : string;
  style : string
}.

Record Display : Type := mkDisplay {
  temp1_value : Label;
  temp2_value : Label;
  diff_value : Label;
  export_btn_enabled : bool;
  chart : option TemperatureChart.Plot;
  total_readings_label : string;
  normal_readings_label : string;
  abnormal_readings_label : string
}.

(** The loop of [update_display] that counts the readings: the pair of
    [normal_readings] and [abnormal_readings]. *)
Definition count_readings (history : list Reading) (threshold_difference : Q)
    : nat * nat :=
  fold_left
    (fun counts reading =>
       let '(normal_readings, abnormal_readings) := counts in
       let temp_diff :=
         double_sub (channel2_temperature reading)
                    (channel1_temperature reading) in
       if Qle_bool (double threshold_difference) temp_diff
       then (S normal_readings, abnormal_readings)
       else (normal_readings, S abnormal_readings))
    history (0%nat, 0%nat).

Definition str_nat (n : nat) : string := str_int (Z.of_nat n).

Definition update_display (station : t) : Display :=
  let status := get_status station in
  let current_temps := status_current_temperatures status in
  let history := get_temperature_history station in
  let '(normal_readings, abnormal_readings) :=
    count_readings history (status_threshold_difference status) in
  {| temp1_value :=
       match channel1 current_temps with
       | Some temp1 => {| text := str_float temp1 ++ degrees; style := "color: #B39DDB;" |}
       | None => {| text := "No data"; style := "color: gray;" |}
       end;
     temp2_value :=
       match channel2 current_temps with
       | Some temp2 => {| text := str_float temp2 ++ degrees; style := "color: #2196F3;" |}
       | None => {| text := "No data"; style := "color: gray;" |}
       end;
     diff_value :=
       match current_difference status with
       | Some current_diff =>
           {| text := ExportFacts.two_decimals current_diff ++ degrees;
              style :=
                match is_abnormal status with
                | Some true => "color: #f44336;"
                | _ => "color: #4CAF50;"
                end |}
       | None => {| text := "No data"; style := "color: gray;" |}
       end;
     export_btn_enabled := (0 <? status_readings_count status)%nat;
     chart :=
       TemperatureChart.update_chart history (status_threshold_difference status);
     total_readings_label :=
       "Total Readings" ++ newline ++
       match history with
       | [] => "--"
       | _ :: _ => str_nat (List.length history)
       end;
     normal_readings_label :=
       "Normal Readings" ++ newline ++
       match history with
       | [] => "--"
       | _ :: _ => str_nat normal_readings
       end;
     abnormal_readings_label :=
       "Abnormal Readings" ++ newline ++
       match history with
       | [] => "--"
       | _ :: _ => str_nat abnormal_readings
       end |}.

(** [name.replace(' ', '_')] *)
Fixpoint replace_spaces (s : string) : string :=
  match s with
  | EmptyString => EmptyString
  | String c s' =>
      String (if Ascii.eqb c " " then "_"%char else c) (replace_spaces s')
  end.

(** [d.strftime('%Y%m%d_%H%M%S')] *)
Definition strftime_compact (d : Datetime.t) : string :=
  pad4 (Datetime.year d) ++ pad2 (Datetime.month d) ++ pad2 (Datetime.day d)
  ++ "_" ++
  pad2 (Datetime.hour d) ++ pad2 (Datetime.minute d) ++ pad2 (Datetime.second d).

Definition suggested_filename (station : t) (now : Datetime.t) : string :=
  replace_spaces (name station) ++ "_temperature_data_" ++
  strftime_compact now ++ ".csv".

Inductive Exported : Type :=
| NothingToExport
| Cancelled (filename : string)
| Written (filename file_path csv_data : string)
| Failed (filename file_path error : string).

(** [export_csv]: [file_path] is what the dialog returns (empty when the
    user cancels), [write] is the file system: [None] when the file is
    written, the message of the exception otherwise. *)
Definition export_csv (station : t) (now : Datetime.t) (file_path : string)
    (write : string -> string -> option string) : Exported :=
  if (0 <? status_readings_count (get_status station))%nat then
    let filename := suggested_filename station now in
    match file_path with
    | EmptyString => Cancelled filename
    | _ =>
        let csv_data := export_to_csv station in
        match write file_path csv_data with
        | None => Written filename file_path csv_data
        | Some e => Failed filename file_path e
        end
    end
  else NothingToExport.

End TemperatureDetectionApp.

(** * Properties of what the window shows *)

Module DisplayFacts.
Import TemperatureStation.
Import TemperatureChart.
Import TemperatureDetectionApp.

(** The test of the window, [difference >= threshold], is the negation of
    the test of the station, [difference < threshold]. *)
Lemma Qle_bool_negb_Qltb (threshold difference : Q) :
  Qle_bool threshold difference = negb (Qltb difference threshold).
Proof. unfold Qle_bool, Qltb. apply Z.leb_antisym. Qed.

(** The difference of a reading, as the window and the station compute it. *)
Definition difference_of (r : Reading) : Q :=
  double_sub (channel2_temperature r) (channel1_temperature r).

Lemma count_readings_from (history : list Reading) (threshold : Q)
    (normal abnormal : nat) :
  fold_left
    (fun counts reading =>
       let '(normal_readings, abnormal_readings) := counts in
       let temp_diff :=
         double_sub (channel2_temperature reading)
                    (channel1_temperature reading) in
       if Qle_bool (double threshold) temp_diff
       then (S normal_readings, abnormal_readings)
       else (normal_readings, S abnormal_readings))
    history (normal, abnormal)
  = ((normal
      + List.length
          (filter (fun r => negb (Qltb (difference_of r) (double threshold)))
                  history))%nat,
     (abnormal
      + List.length
          (filter (fun r => Qltb (difference_of r) (double threshold))
                  history))%nat).
Proof.
  revert normal abnormal.
  induction history as [|r history IH]; intros normal abnormal.
  - cbn. now rewrite !Nat.add_0_r.
  - cbn [fold_left filter]. rewrite Qle_bool_negb_Qltb. fold (difference_of r).
    destruct (Qltb (difference_of r) (double threshold)); cbn [negb];
      rewrite IH; cbn [List.length]; f_equal; lia.
Qed.

(** The reading of 10.06 and 20.06, whose difference as doubles is
    9.999999999999998. *)
Definition just_below_ten : Reading :=
  {| timestamp := StationFacts.noon;
     channel1_temperature := 1006 # 100;
     channel2_temperature := 2006 # 100 |}.

(** X19. The statistics of the window count every reading once: the normal
    and the abnormal readings add up to the length of the history, and a
    reading is counted as abnormal exactly when its difference, subtracted
    as doubles, is below the threshold, which is the test [get_status]
    applies to the current temperatures. The reading 10.06 / 20.06 is
    abnormal under a threshold of 10.0: its difference is
    9.999999999999998. *)
Theorem count_readings_adds_up (history : list Reading) (threshold : Q) :
  (fst (count_readings history threshold)
   + snd (count_readings history threshold) = List.length history)%nat /\
  snd (count_readings history threshold)
  = List.length
      (filter (fun r => Qltb (difference_of r) (double threshold)) history) /\
  fst (count_readings history threshold)
  = List.length
      (filter (fun r => negb (Qltb (difference_of r) (double threshold)))
              history) /\
  count_readings [just_below_ten] 10 = (0%nat, 1%nat).
Proof.
  unfold count_readings at 1 2 3 4. rewrite count_readings_from. cbn [fst snd].
  split; [|split; [reflexivity|split; [reflexivity|]]].
  - induction history as [|r history IH]; cbn; [reflexivity|].
    destruct (Qltb (difference_of r) (double threshold)); cbn; lia.
  - vm_compute. reflexivity.
Qed.

Lemma get_status_static (s : t) :
  status_threshold_difference (get_status s) = threshold_difference s /\
  status_readings_count (get_status s) = List.length (temperature_history s) /\
  status_current_temperatures (get_status s) = current_temperatures s.
Proof.
  unfold get_status, get_current_temperatures.
  destruct (channel1 (current_temperatures s)), (channel2 (current_temperatures s));
    repeat split.
Qed.

(** *** The chart *)

Definition segment_of (threshold : Q) (r : Reading) : Segment :=
  {| segment_time := timestamp r;
     segment_from := channel1_temperature r;
     segment_to := channel2_temperature r;
     segment_color :=
       line_color (channel1_temperature r) (channel2_temperature r) threshold |}.

Lemma combine_maps {A B C D} (f : A -> B) (g : A -> C) (h : A -> D)
    (l : list A) :
  combine (map f l) (combine (map g l) (map h l))
  = map (fun x => (f x, (g x, h x))) l.
Proof. induction l as [|x l IH]; cbn; [reflexivity|]. now rewrite IH. Qed.

Lemma update_chart_segments (first : Reading) (rest : list Reading)
    (threshold : Q) :
  exists plot,
    update_chart (first :: rest) threshold = Some plot /\
    times plot = map timestamp (first :: rest) /\
    channel1_temps plot = map channel1_temperature (first :: rest) /\
    channel2_temps plot = map channel2_temperature (first :: rest) /\
    segments plot = map (segment_of threshold) (first :: rest).
Proof.
  eexists. split; [reflexivity|]. cbn [times channel1_temps channel2_temps
    segments]. do 3 (split; [reflexivity|]).
  rewrite combine_maps, map_map. reflexivity.
Qed.

Lemma py_min_below_start (rest : list Q) (m : Q) : py_min m rest <= m.
Proof.
  unfold py_min. revert m. induction rest as [|y rest IH]; intros m.
  - apply Qle_refl.
  - cbn [fold_left]. destruct (Qltb y m) eqn:H.
    + apply Qltb_lt in H. eapply Qle_trans; [apply IH|].
      apply Qlt_le_weak, H.
    + apply IH.
Qed.

Lemma py_min_below (rest : list Q) (m x : Q) :
  In x rest -> py_min m rest <= x.
Proof.
  unfold py_min. revert m. induction rest as [|y rest IH]; intros m Hin.
  - destruct Hin.
  - cbn [fold_left]. destruct Hin as [->|Hin]; [|apply IH, Hin].
    eapply Qle_trans; [apply py_min_below_start|].
    destruct (Qltb x m) eqn:H; [apply Qle_refl|]. apply Qltb_ge, H.
Qed.

Lemma py_max_above_start (rest : list Q) (m : Q) : m <= py_max m rest.
Proof.
  unfold py_max. revert m. induction rest as [|y rest IH]; intros m.
  - apply Qle_refl.
  - cbn [fold_left]. destruct (Qltb m y) eqn:H.
    + apply Qltb_lt in H. eapply Qle_trans; [|apply IH].
      apply Qlt_le_weak, H.
    + apply IH.
Qed.

Lemma py_max_above (rest : list Q) (m x : Q) :
  In x rest -> x <= py_max m rest.
Proof.
  unfold py_max. revert m. induction rest as [|y rest IH]; intros m Hin.
  - destruct Hin.
  - cbn [fold_left]. destruct Hin as [->|Hin]; [|apply IH, Hin].
    eapply Qle_trans; [|apply py_max_above_start].
    destruct (Qltb m x) eqn:H; [apply Qle_refl|]. apply Qltb_ge, H.
Qed.

(** The limits [update_chart] gives to the axis for a non-empty list. *)
Lemma limits_enclose (first : Q) (rest : list Q) (x : Q) :
  In x (first :: rest) ->
  let min_temp := py_min first rest in
  let max_temp := py_max first rest in
  let padding :=
    if negb (Qeq_bool max_temp min_temp)
    then (max_temp - min_temp) * (1 # 10) else 1 in
  min_temp - padding < x /\ x < max_temp + padding.
Proof.
  intros Hin min_temp max_temp padding.
  assert (Hlo : min_temp <= x).
  { destruct Hin as [<-|Hin];
      [apply py_min_below_start|apply py_min_below, Hin]. }
  assert (Hhi : x <= max_temp).
  { destruct Hin as [<-|Hin];
      [apply py_max_above_start|apply py_max_above, Hin]. }
  assert (Hpad : 0 < padding).
  { subst padding. destruct (Qeq_bool max_temp min_temp) eqn:E; cbn [negb].
    - reflexivity.
    - apply Qeq_bool_neq in E.
      destruct (Qlt_le_dec min_temp max_temp) as [Hlt|Hge]; [lra|].
      exfalso. apply E. apply Qle_antisym; [exact Hge|].
      eapply Qle_trans; eassumption. }
  split; lra.
Qed.

(** X20. The chart has one segment for each reading, in the order of the
    history, drawn at the time of the reading from its channel 1 to its
    channel 2 and coloured by its difference; and the limits of the
    vertical axis lie strictly outside every temperature of the history, so
    no point sits on the border. Without readings there is no plot. *)
Theorem chart_shows_every_reading (history : list Reading) (threshold : Q) :
  match update_chart history threshold with
  | None => history = []
  | Some plot =>
      history <> [] /\
      times plot = map timestamp history /\
      channel1_temps plot = map channel1_temperature history /\
      channel2_temps plot = map channel2_temperature history /\
      segments plot = map (segment_of threshold) history /\
      exists lo hi : Q,
        ylim plot = Some (lo, hi) /\
        forall r : Reading,
          In r history ->
          (lo < channel1_temperature r /\ channel1_temperature r < hi) /\
          (lo < channel2_temperature r /\ channel2_temperature r < hi)
  end.
Proof.
  destruct history as [|first rest]; [reflexivity|].
  destruct (update_chart_segments first rest threshold)
    as (plot & E & Ht & H1 & H2 & Hs).
  rewrite E. split; [discriminate|].
  do 4 (split; [assumption|]).
  revert E. unfold update_chart. cbn [map app]. intros E.
  injection E as <-. cbn [ylim].
  do 2 eexists. split; [reflexivity|].
  intros r Hr. split.
  - apply limits_enclose.
    change (In (channel1_temperature r)
              (map channel1_temperature (first :: rest)
               ++ channel2_temperature first :: map channel2_temperature rest)).
    apply in_or_app. left. apply in_map, Hr.
  - apply limits_enclose.
    change (In (channel2_temperature r)
              (map channel1_temperature (first :: rest)
               ++ map channel2_temperature (first :: rest))).
    apply in_or_app. right. apply in_map, Hr.
Qed.

(** X21. The window and the station agree on the newest reading: when the
    current temperatures are those of the newest reading, the status flags
    them as abnormal exactly when the chart draws the last segment, the one
    of that reading, in the colour for abnormal, and the label of the
    difference has the colour of that segment and shows the difference with
    two decimals. *)
Theorem display_agrees_with_status (s : t) (older : list Reading) (r : Reading) :
  temperature_history s = (older ++ [r])%list ->
  current_temperatures s
  = {| channel1 := Some (channel1_temperature r);
       channel2 := Some (channel2_temperature r) |} ->
  let colour :=
    line_color (channel1_temperature r) (channel2_temperature r)
               (threshold_difference s) in
  (is_abnormal (get_status s) = Some true <-> colour = abnormal_color) /\
  (is_abnormal (get_status s) = Some false <-> colour = normal_color) /\
  style (diff_value (update_display s)) = "color: " ++ colour ++ ";" /\
  text (diff_value (update_display s))
  = ExportFacts.two_decimals (difference_of r) ++ degrees /\
  exists plot,
    chart (update_display s) = Some plot /\
    segments plot
    = (map (segment_of (threshold_difference s)) older
       ++ [ {| segment_time := timestamp r;
               segment_from := channel1_temperature r;
               segment_to := channel2_temperature r;
               segment_color := colour |} ])%list.
Proof.
  intros Hh Hc colour. subst colour.
  assert (Hchart : exists plot,
             chart (update_display s) = Some plot /\
             segments plot
             = (map (segment_of (threshold_difference s)) older
                ++ [segment_of (threshold_difference s) r])%list).
  { unfold update_display.
    destruct (count_readings _ _) as [normal abnormal]. cbn [chart].
    unfold get_temperature_history.
    rewrite (proj1 (get_status_static s)), Hh.
    destruct (older ++ [r])%list as [|first rest] eqn:El;
      [destruct older; discriminate|].
    destruct (update_chart_segments first rest (threshold_difference s))
      as (plot & E & _ & _ & _ & Hs).
    exists plot. split; [exact E|]. rewrite Hs, <- El, map_app. reflexivity. }
  unfold update_display in *.
  destruct (count_readings _ _) as [normal abnormal].
  cbn [diff_value style text chart] in *.
  unfold get_status, get_current_temperatures in *. rewrite Hc in *.
  cbn [channel1 channel2 current_difference is_abnormal
       status_threshold_difference] in *.
  unfold segment_of in Hchart.
  unfold line_color, difference_of in *. rewrite Qle_bool_negb_Qltb in *.
  destruct (Qltb _ _); cbn [negb] in *; unfold abnormal_color, normal_color in *;
    (split; [split; [reflexivity || discriminate|reflexivity || discriminate]|]);
    (split; [split; [reflexivity || discriminate|reflexivity || discriminate]|]);
    (split; [reflexivity|]); (split; [reflexivity|]); exact Hchart.
Qed.

Lemma display_agrees_with_status_witness :
  style (diff_value (update_display (fst StationFacts.running_station)))
  = "color: #4CAF50;".
Proof.
  destruct (display_agrees_with_status (fst StationFacts.running_station) []
              (StationFacts.reading_of StationFacts.demo_inputs
                 (StationFacts.simulated1 StationFacts.demo_inputs)
                 (StationFacts.simulated2 StationFacts.demo_inputs)))
    as (_ & _ & H & _).
  - reflexivity.
  - reflexivity.
  - rewrite H. reflexivity.
Defined.

(** *** Exporting from the window *)

Definition a_file_system (path data : string) : option string := None.

(** X22. [export_csv] does what the export button promises: with the button
    disabled (no reading) nothing is offered or written; with the button
    enabled, a path chosen and a file system that accepts the file, the text
    of [export_to_csv] is written to that path; and whatever the inputs, a
    file is only ever written for a history with readings, at the chosen
    path and with exactly that text. *)
Theorem export_csv_follows_button (station : t) (now : Datetime.t)
    (file_path : string) (write : string -> string -> option string) :
  export_btn_enabled (update_display station)
  = negb (Nat.eqb (List.length (temperature_history station)) 0) /\
  (temperature_history station = [] ->
   export_csv station now file_path write = NothingToExport) /\
  (temperature_history station <> [] -> file_path <> "" ->
   write file_path (export_to_csv station) = None ->
   export_csv station now file_path write
   = Written (suggested_filename station now) file_path
             (export_to_csv station)) /\
  (forall filename path data,
     export_csv station now file_path write = Written filename path data ->
     temperature_history station <> [] /\ path = file_path /\
     file_path <> "" /\ data = export_to_csv station).
Proof.
  destruct (get_status_static station) as (_ & Hcount & _).
  assert (Hbtn : export_btn_enabled (update_display station)
                 = negb (Nat.eqb (List.length (temperature_history station)) 0)).
  { unfold update_display. destruct (count_readings _ _) as [n a].
    cbn [export_btn_enabled]. rewrite Hcount.
    destruct (temperature_history station); reflexivity. }
  split; [exact Hbtn|]. unfold export_csv. rewrite Hcount.
  split; [|split].
  - intros ->. reflexivity.
  - intros Hne Hpath Hw.
    destruct (temperature_history station) as [|r h]; [contradiction|].
    cbn [List.length Nat.ltb Nat.leb].
    destruct file_path; [contradiction|]. rewrite Hw. reflexivity.
  - intros filename path data.
    destruct (temperature_history station) as [|r h]; [discriminate|].
    cbn [List.length Nat.ltb Nat.leb].
    destruct file_path as [|c p]; [discriminate|].
    destruct (write _ _); [discriminate|].
    intros E. injection E as _ <- <-. repeat split; discriminate.
Qed.

Lemma export_csv_follows_button_witness :
  export_csv (fst StationFacts.running_station) StationFacts.noon
    "data.csv" a_file_system
  = Written (suggested_filename (fst StationFacts.running_station)
               StationFacts.noon)
            "data.csv" (export_to_csv (fst StationFacts.running_station)).
Proof.
  apply (export_csv_follows_button (fst StationFacts.running_station)
           StationFacts.noon "data.csv" a_file_system).
  - vm_compute. discriminate.
  - discriminate.
  - reflexivity.
Defined.

Fixpoint has_space (s : string) : bool :=
  match s with
  | EmptyString => false
  | String c s' => Ascii.eqb c " " || has_space s'
  end.

Lemma has_space_app (a b : string) :
  has_space (a ++ b) = has_space a || has_space b.
Proof.
  induction a as [|x a IH]; cbn; [reflexivity|].
  rewrite IH. apply orb_assoc.
Qed.

Lemma has_space_replace_spaces (s : string) :
  has_space (replace_spaces s) = false.
Proof.
  induction s as [|c s IH]; cbn; [reflexivity|].
  rewrite IH. destruct (Ascii.eqb c " ") eqn:E; [reflexivity|].
  rewrite E. reflexivity.
Qed.

Lemma digit_is_no_space (k : Z) :
  (0 <= k <= 9)%Z -> Ascii.eqb (digit k) " " = false.
Proof. intros Hk. ExportFacts.digit_cases k. Qed.

(** X23. The file name the window proposes for an export never contains a
    space, whatever the name of the station: the spaces of the name become
    underscores and the timestamp is written without any. *)
Theorem suggested_filename_has_no_space (station : t) (now : Datetime.t) :
  Datetime.valid now ->
  has_space (suggested_filename station now) = false.
Proof.
  intros (Hy & Hm & Hd & Hh & Hmi & Hs).
  unfold suggested_filename. rewrite has_space_app, has_space_replace_spaces.
  unfold strftime_compact, pad4, pad2.
  cbn -[digit Z.div Z.modulo].
  rewrite !digit_is_no_space by (Z.to_euclidean_division_equations; lia).
  reflexivity.
Qed.

Lemma suggested_filename_has_no_space_witness :
  has_space (suggested_filename (fst StationFacts.running_station)
               StationFacts.noon) = false.
Proof.
  apply (suggested_filename_has_no_space (fst StationFacts.running_station)
           StationFacts.noon).
  repeat split; discriminate.
Defined.

End DisplayFacts.
